(** * Catalog: resolution of encoder configs and action distributions

    A shallow embedding of [rllib/core/models/catalog.py] and the
    properties of its resolvers: [Catalog.get_encoder_config],
    [Catalog.get_tokenizer_config], [Catalog.get_action_dist_cls_dict],
    [Catalog.get_action_dist_cls] and the constructor [Catalog.__init__].

    Python dicts that the code creates, receives or mutates live in a store
    and are passed by reference, so that the in-place write of derived
    [conv_filters] and its (non-)visibility to the caller can be stated.
    Exceptions are an error result that leaves the store as it was when
    the exception was raised. *)

From Stdlib Require Import ZArith String Ascii List Bool.
From stdpp Require Import gmap strings list fin_maps.

Local Open Scope Z_scope.
Local Open Scope string_scope.
Set Warnings "-register-all".

(** ** Python values held in a model-config dict *)

(** [None], booleans, integers, strings and lists (the filter specifiers
    of [conv_filters] are lists of lists). *)
Inductive PyVal : Type :=
| PNone
| PBool (b : bool)
| PInt (n : Z)
| PStr (s : string)
| PList (items : list PyVal).

(** Python truth value testing, as used by [if x], [not x] and [x or y]. *)
Definition truthy (v : PyVal) : bool :=
  match v with
  | PNone => false
  | PBool b => b
  | PInt n => negb (Z.eqb n 0)
  | PStr s => negb (String.eqb s "")
  | PList items => match items with [] => false | _ :: _ => true end
  end.

(** ** Gym spaces *)

(** The closed taxonomy the resolvers test with [isinstance].  A [Box]
    carries its shape and [dtype.char]; [OtherSpace] stands for any object
    that is an instance of none of the tested classes. *)
Inductive Space : Type :=
| Box (shape : list Z) (dtype_char : ascii)
| Discrete (n : Z)
| MultiDiscrete (nvec : list Z)
| Tuple (spaces : list Space)
| Dict (spaces : list (string * Space))
| Simplex (shape : list Z)
| OtherSpace (repr : string).

(** [np.typecodes["AllInteger"]]. *)
Definition np_typecodes_AllInteger : string := "bBhHiIlLqQpP".

Fixpoint char_in (c : ascii) (s : string) : bool :=
  match s with
  | EmptyString => false
  | String d rest => if Ascii.eqb c d then true else char_in c rest
  end.

(** ** Exceptions *)

(** Each [raise] statement of the module has its own site, so that two
    [NotImplementedError]s raised at different places stay apart. *)
Inductive RaiseSite : Type :=
| site_use_attention          (* line 189: bare [raise NotImplementedError] *)
| site_complex_observation    (* line 228 *)
| site_tuple_dict_action      (* line 310 *)
| site_simplex_action         (* line 315 *)
| site_multidiscrete_action   (* line 320 *)
| site_unknown_action.        (* line 324 *)

Inductive PyErr : Type :=
| KeyError (key : string)
| IndexError
| TypeError
| AttributeError (name : string)
| ValueError                          (* line 285: Box(..., int) action space *)
| UnsupportedSpaceException           (* line 291 *)
| NotImplementedError (site : RaiseSite)
| FilterConfigError                   (* whatever [get_filter_config] raises, passed on *)
| InvalidReference.                   (* a reference to no object: unreachable from Python *)

Inductive result (A : Type) : Type :=
| Ok (a : A)
| Err (e : PyErr).
Arguments Ok {A} a.
Arguments Err {A} e.

(** ** Encoder configs *)

Abbreviation loc := positive.

(** The callables a config can hold: only the bound classmethod
    [cls.get_tokenizer_config] is ever stored. *)
Inductive Callable : Type :=
| Catalog_get_tokenizer_config.

(** The config classes are dataclasses imported from
    [ray.rllib.core.models.configs]; they hold the keyword arguments as
    passed. *)
Module MLPEncoderConfig.
Record t : Type := make {
  input_dim : Z;
  hidden_layer_dims : PyVal;
  hidden_layer_activation : PyVal;
  output_dim : PyVal;
  output_activation : PyVal;
}.
End MLPEncoderConfig.

Module CNNEncoderConfig.
Record t : Type := make {
  input_dims : list Z;
  filter_specifiers : PyVal;
  filter_layer_activation : PyVal;
  output_activation : PyVal;
  output_dim : PyVal;
}.
End CNNEncoderConfig.

Module LSTMEncoderConfig.
Record t : Type := make {
  hidden_dim : PyVal;
  batch_first : bool;
  num_layers : Z;
  output_dim : PyVal;
  output_activation : PyVal;
  observation_space : Space;
  action_space : option Space;
  view_requirements_dict : option loc;
  get_tokenizer_config : Callable;
}.
End LSTMEncoderConfig.

Inductive ModelConfig : Type :=
| MLP (c : MLPEncoderConfig.t)
| CNN (c : CNNEncoderConfig.t)
| LSTM (c : LSTMEncoderConfig.t).

(** The attribute [output_dim], which every variant has. *)
Definition output_dim (c : ModelConfig) : PyVal :=
  match c with
  | MLP c => MLPEncoderConfig.output_dim c
  | CNN c => CNNEncoderConfig.output_dim c
  | LSTM c => LSTMEncoderConfig.output_dim c
  end.

(** ** Action distribution classes *)

Inductive DistCls : Type :=
| TorchDeterministic | TfDeterministic
| TorchDiagGaussian | TfDiagGaussian
| TorchCategorical | TfCategorical.

(** ** The store *)

(** Attribute values of a [Catalog] instance. *)
Inductive Attr : Type :=
| ASpace (s : Space)
| ADictRef (l : loc)
| AOptRef (l : option loc)
| AConfig (c : ModelConfig)
| ADistDict (d : gmap string DistCls)
| AVal (v : PyVal).

(** Dict objects and class instances, each kind under its own references. *)
Record State : Type := mkState {
  dicts : gmap loc (gmap string PyVal);
  objs : gmap loc (gmap string Attr);
}.

(** ** The state and exception monad *)

Definition M (A : Type) : Type := State → result A * State.

Definition ret {A} (a : A) : M A := λ σ, (Ok a, σ).
Definition raise {A} (e : PyErr) : M A := λ σ, (Err e, σ).
Definition bind {A B} (m : M A) (k : A → M B) : M B :=
  λ σ, match m σ with
       | (Ok a, σ') => k a σ'
       | (Err e, σ') => (Err e, σ')
       end.

Notation "'let*' x ':=' m 'in' k" := (bind m (λ x, k))
  (at level 10, x name, m at level 100, k at level 200).

Definition lift_result {A} (r : result A) : M A :=
  match r with Ok a => ret a | Err e => raise e end.

(** A new dict object with the given content: [{...}]. *)
Definition new_dict (d : gmap string PyVal) : M loc :=
  λ σ, let l := fresh (dom (dicts σ)) in
       (Ok l, mkState (<[l := d]> (dicts σ)) (objs σ)).

(** The content of the dict behind a reference. *)
Definition read_dict (l : loc) : M (gmap string PyVal) :=
  λ σ, match dicts σ !! l with
       | Some d => (Ok d, σ)
       | None => (Err InvalidReference, σ)
       end.

(** [d[key]] *)
Definition dict_getitem (l : loc) (key : string) : M PyVal :=
  let* d := read_dict l in
  match d !! key with
  | Some v => ret v
  | None => raise (KeyError key)
  end.

(** [d.get(key)] *)
Definition dict_get (l : loc) (key : string) : M PyVal :=
  let* d := read_dict l in
  ret (default PNone (d !! key)).

(** [d[key] = v], in place. *)
Definition dict_setitem (l : loc) (key : string) (v : PyVal) : M unit :=
  let* d := read_dict l in
  λ σ, (Ok tt, mkState (<[l := <[key := v]> d]> (dicts σ)) (objs σ)).

(** [x[-1]] *)
Definition subscript_last (x : PyVal) : result PyVal :=
  match x with
  | PList items =>
      match items with
      | [] => Err IndexError
      | _ :: _ => Ok (List.last items PNone)
      end
  | PStr s =>
      match s with
      | EmptyString => Err IndexError
      | String _ _ => Ok (PStr (String.substring (Nat.pred (String.length s)) 1 s))
      end
  | _ => Err TypeError
  end.

(** [x[:-1]] *)
Definition slice_but_last (x : PyVal) : result PyVal :=
  match x with
  | PList items => Ok (PList (List.removelast items))
  | PStr s => Ok (PStr (String.substring 0 (Nat.pred (String.length s)) s))
  | _ => Err TypeError
  end.

(** A new, attribute-less instance: what [__init__] receives as [self]. *)
Definition new_object : M loc :=
  λ σ, let l := fresh (dom (objs σ)) in
       (Ok l, mkState (dicts σ) (<[l := ∅]> (objs σ))).

(** [self.name = v] *)
Definition setattr (self : loc) (name : string) (v : Attr) : M unit :=
  λ σ, match objs σ !! self with
       | Some attrs => (Ok tt, mkState (dicts σ) (<[self := <[name := v]> attrs]> (objs σ)))
       | None => (Err InvalidReference, σ)
       end.

(** [self.name] *)
Definition getattr (self : loc) (name : string) : M Attr :=
  λ σ, match objs σ !! self with
       | Some attrs =>
           match attrs !! name with
           | Some v => (Ok v, σ)
           | None => (Err (AttributeError name), σ)
           end
       | None => (Err InvalidReference, σ)
       end.

(** ** The class [Catalog] *)

Module Catalog.
Section WithImports.

(** [ray.rllib.models.MODEL_DEFAULTS], the process-wide table of
    defaults, which this module only reads. *)
Variable MODEL_DEFAULTS : gmap string PyVal.

(** [ray.rllib.models.utils.get_filter_config]: the filter specifiers
    for an input shape, or [None] when it raises (it knows no filters
    for the shape). *)
Variable get_filter_config : list Z → option PyVal.

Definition call_get_filter_config (shape : list Z) : result PyVal :=
  match get_filter_config shape with
  | Some filters => Ok filters
  | None => Err FilterConfigError
  end.

(** [{**MODEL_DEFAULTS, **model_config_dict}]: a new dict in which the
    entries of [model_config_dict] win. *)
Definition merge_defaults (model_config_dict : loc) : M loc :=
  let* d := read_dict model_config_dict in
  new_dict (d ∪ MODEL_DEFAULTS).

(** Lines 132-230. *)
Definition get_encoder_config
    (observation_space : Space) (model_config_dict : loc)
    (action_space : option Space) (view_requirements : option loc)
    : M ModelConfig :=
  let* model_config_dict := merge_defaults model_config_dict in
  let* activation := dict_getitem model_config_dict "fcnet_activation" in
  let* output_activation := dict_getitem model_config_dict "fcnet_activation" in
  let* fcnet_hiddens := dict_getitem model_config_dict "fcnet_hiddens" in
  let* encoder_latent_dim :=
    (let* x := dict_getitem model_config_dict "encoder_latent_dim" in
     if truthy x then ret x else lift_result (subscript_last fcnet_hiddens)) in
  let* use_lstm := dict_getitem model_config_dict "use_lstm" in
  if truthy use_lstm then
    let* hidden_dim := dict_getitem model_config_dict "lstm_cell_size" in
    let* time_major := dict_getitem model_config_dict "_time_major" in
    let* output_dim := dict_getitem model_config_dict "lstm_cell_size" in
    ret (LSTM {|
      LSTMEncoderConfig.hidden_dim := hidden_dim;
      LSTMEncoderConfig.batch_first := negb (truthy time_major);
      LSTMEncoderConfig.num_layers := 1;
      LSTMEncoderConfig.output_dim := output_dim;
      LSTMEncoderConfig.output_activation := output_activation;
      LSTMEncoderConfig.observation_space := observation_space;
      LSTMEncoderConfig.action_space := action_space;
      LSTMEncoderConfig.view_requirements_dict := view_requirements;
      LSTMEncoderConfig.get_tokenizer_config := Catalog_get_tokenizer_config;
    |})
  else
    let* use_attention := dict_getitem model_config_dict "use_attention" in
    if truthy use_attention then
      raise (NotImplementedError site_use_attention)
    else
      match observation_space with
      | Box shape _ =>
          if (length shape =? 1)%nat then
            let* x := dict_getitem model_config_dict "encoder_latent_dim" in
            let* hidden_layer_dims :=
              (if truthy x then dict_getitem model_config_dict "fcnet_hiddens"
               else
                 let* h := dict_getitem model_config_dict "fcnet_hiddens" in
                 lift_result (slice_but_last h)) in
            match shape with
            | [] => raise IndexError
            | input_dim :: _ =>
                ret (MLP {|
                  MLPEncoderConfig.input_dim := input_dim;
                  MLPEncoderConfig.hidden_layer_dims := hidden_layer_dims;
                  MLPEncoderConfig.hidden_layer_activation := activation;
                  MLPEncoderConfig.output_dim := encoder_latent_dim;
                  MLPEncoderConfig.output_activation := output_activation;
                |})
            end
          else if (length shape =? 3)%nat then
            let* given := dict_get model_config_dict "conv_filters" in
            let* _ :=
              (if negb (truthy given) then
                 let* derived := lift_result (call_get_filter_config shape) in
                 dict_setitem model_config_dict "conv_filters" derived
               else ret tt) in
            let* filter_specifiers := dict_getitem model_config_dict "conv_filters" in
            ret (CNN {|
              CNNEncoderConfig.input_dims := shape;
              CNNEncoderConfig.filter_specifiers := filter_specifiers;
              CNNEncoderConfig.filter_layer_activation := activation;
              CNNEncoderConfig.output_activation := output_activation;
              CNNEncoderConfig.output_dim := encoder_latent_dim;
            |})
          else
            raise (NotImplementedError site_complex_observation)
      | _ => raise (NotImplementedError site_complex_observation)
      end.

(** Lines 232-249.  The flags are overridden in a new dict (the dict
    display of the two overrides is a temporary that nothing else
    refers to); the call leaves [action_space] and [view_requirements]
    at their default [None]. *)
Definition get_tokenizer_config (space : Space) (model_config_dict : loc)
    : M ModelConfig :=
  let* d := read_dict model_config_dict in
  let* forced :=
    new_dict (<["use_lstm" := PBool false]> (<["use_attention" := PBool false]> d)) in
  get_encoder_config space forced None None.

(** Calling a stored callable. *)
Definition call (f : Callable) (space : Space) (model_config_dict : loc)
    : M ModelConfig :=
  match f with
  | Catalog_get_tokenizer_config => get_tokenizer_config space model_config_dict
  end.

(** Lines 276-280. *)
Definition distribution_dicts : gmap string (gmap string DistCls) :=
  list_to_map [
    ("deterministic",
      list_to_map [("torch", TorchDeterministic); ("tf", TfDeterministic)]);
    ("gaussian",
      list_to_map [("torch", TorchDiagGaussian); ("tf", TfDiagGaussian)]);
    ("categorical",
      list_to_map [("torch", TorchCategorical); ("tf", TfCategorical)])
  ].

Definition getitem {V} (d : gmap string V) (key : string) : result V :=
  match d !! key with
  | Some v => Ok v
  | None => Err (KeyError key)
  end.

(** Lines 251-324.  [deterministic] is an [Optional[bool]], tested for
    truth.  The function reads and writes no object the caller holds. *)
Definition get_action_dist_cls_dict
    (action_space : Space) (deterministic : option bool)
    : result (gmap string DistCls) :=
  match action_space with
  | Box shape dtype_char =>
      if char_in dtype_char np_typecodes_AllInteger then
        Err ValueError
      else if (1 <? length shape)%nat then
        Err UnsupportedSpaceException
      else if default false deterministic then
        getitem distribution_dicts "deterministic"
      else
        getitem distribution_dicts "gaussian"
  | Discrete _ => getitem distribution_dicts "categorical"
  | Tuple _ | Dict _ => Err (NotImplementedError site_tuple_dict_action)
  | Simplex _ => Err (NotImplementedError site_simplex_action)
  | MultiDiscrete _ => Err (NotImplementedError site_multidiscrete_action)
  | OtherSpace _ => Err (NotImplementedError site_unknown_action)
  end.

(** Lines 73-116. *)
Definition __init__ (self : loc)
    (observation_space action_space : Space) (model_config_dict : loc)
    (view_requirements : option loc) : M unit :=
  let* _ := setattr self "observation_space" (ASpace observation_space) in
  let* _ := setattr self "action_space" (ASpace action_space) in
  let* merged := merge_defaults model_config_dict in
  let* _ := setattr self "model_config_dict" (ADictRef merged) in
  let* _ := setattr self "view_requirements" (AOptRef view_requirements) in
  let* encoder_config :=
    get_encoder_config observation_space model_config_dict
      (Some action_space) view_requirements in
  let* _ := setattr self "encoder_config" (AConfig encoder_config) in
  let* action_dist_cls_dict :=
    lift_result (get_action_dist_cls_dict action_space (Some false)) in
  let* _ := setattr self "action_dist_cls_dict" (ADistDict action_dist_cls_dict) in
  let* e := getattr self "encoder_config" in
  match e with
  | AConfig c => setattr self "latent_dim" (AVal (output_dim c))
  | _ => raise (AttributeError "output_dim")
  end.

(** The call [Catalog(...)]: the caller gets the instance only when
    [__init__] returns. *)
Definition new
    (observation_space action_space : Space) (model_config_dict : loc)
    (view_requirements : option loc) : M loc :=
  let* self := new_object in
  let* _ := __init__ self observation_space action_space model_config_dict
              view_requirements in
  ret self.

(** Lines 326-340. *)
Definition get_action_dist_cls (self : loc) (framework : string) : M DistCls :=
  let* d := getattr self "action_dist_cls_dict" in
  match d with
  | ADistDict d => lift_result (getitem d framework)
  | _ => raise TypeError
  end.

End WithImports.
End Catalog.

(** ** A concrete setting for running the code *)

(** A table of defaults with the keys the resolvers read; the optional
    entries are [None] and the flags are off. *)
Definition sample_defaults : gmap string PyVal :=
  list_to_map [
    ("fcnet_hiddens", PList [PInt 256; PInt 256]);
    ("fcnet_activation", PStr "tanh");
    ("encoder_latent_dim", PNone);
    ("conv_filters", PNone);
    ("use_lstm", PBool false);
    ("use_attention", PBool false);
    ("lstm_cell_size", PInt 256);
    ("_time_major", PBool false)
  ].

Definition filter_spec (out_channels : Z) (kernel : Z) (stride : Z) : PyVal :=
  PList [PInt out_channels; PList [PInt kernel; PInt kernel]; PInt stride].

(** A filter heuristic that knows 84x84 inputs only. *)
Definition sample_filter_config (shape : list Z) : option PyVal :=
  match shape with
  | [84; 84; _] =>
      Some (PList [filter_spec 16 8 4; filter_spec 32 4 2; filter_spec 256 11 1])
  | _ => None
  end.

(** A store holding one dict, the caller's, at reference 1. *)
Definition store_with (d : gmap string PyVal) : State :=
  mkState {[ 1%positive := d ]} ∅.

Definition float32 : ascii := "f"%char.
Definition int64 : ascii := "l"%char.


(** ** The resolver's body over the content of its merged dict *)

(** What [Catalog.get_encoder_config] computes once its merged dict holds
    [m]: the outcome and the final content of that dict.  It is a device
    for the proofs below; [get_encoder_config_run] ties it to the code. *)
Definition try_with {A} (m : gmap string PyVal) (r : result A)
    (k : A → result ModelConfig * gmap string PyVal)
    : result ModelConfig * gmap string PyVal :=
  match r with
  | Ok a => k a
  | Err e => (Err e, m)
  end.

Definition resolve_merged (get_filter_config : list Z → option PyVal)
    (observation_space : Space) (m : gmap string PyVal)
    (action_space : option Space) (view_requirements : option loc)
    : result ModelConfig * gmap string PyVal :=
  try_with m (Catalog.getitem m "fcnet_activation") (λ activation,
  try_with m (Catalog.getitem m "fcnet_hiddens") (λ fcnet_hiddens,
  try_with m (Catalog.getitem m "encoder_latent_dim") (λ x,
  try_with m (if truthy x then Ok x else subscript_last fcnet_hiddens)
    (λ encoder_latent_dim,
  try_with m (Catalog.getitem m "use_lstm") (λ use_lstm,
  if truthy use_lstm then
    try_with m (Catalog.getitem m "lstm_cell_size") (λ cell,
    try_with m (Catalog.getitem m "_time_major") (λ time_major,
    (Ok (LSTM {|
       LSTMEncoderConfig.hidden_dim := cell;
       LSTMEncoderConfig.batch_first := negb (truthy time_major);
       LSTMEncoderConfig.num_layers := 1;
       LSTMEncoderConfig.output_dim := cell;
       LSTMEncoderConfig.output_activation := activation;
       LSTMEncoderConfig.observation_space := observation_space;
       LSTMEncoderConfig.action_space := action_space;
       LSTMEncoderConfig.view_requirements_dict := view_requirements;
       LSTMEncoderConfig.get_tokenizer_config := Catalog_get_tokenizer_config;
     |}), m)))
  else
    try_with m (Catalog.getitem m "use_attention") (λ use_attention,
    if truthy use_attention then
      (Err (NotImplementedError site_use_attention), m)
    else
      match observation_space with
      | Box shape _ =>
          if (length shape =? 1)%nat then
            try_with m
              (if truthy x then Ok fcnet_hiddens else slice_but_last fcnet_hiddens)
              (λ hidden_layer_dims,
               match shape with
               | [] => (Err IndexError, m)
               | input_dim :: _ =>
                   (Ok (MLP {|
                      MLPEncoderConfig.input_dim := input_dim;
                      MLPEncoderConfig.hidden_layer_dims := hidden_layer_dims;
                      MLPEncoderConfig.hidden_layer_activation := activation;
                      MLPEncoderConfig.output_dim := encoder_latent_dim;
                      MLPEncoderConfig.output_activation := activation;
                    |}), m)
               end)
          else if (length shape =? 3)%nat then
            let given := default PNone (m !! "conv_filters") in
            let cnn filters :=
              CNN {|
                CNNEncoderConfig.input_dims := shape;
                CNNEncoderConfig.filter_specifiers := filters;
                CNNEncoderConfig.filter_layer_activation := activation;
                CNNEncoderConfig.output_activation := activation;
                CNNEncoderConfig.output_dim := encoder_latent_dim;
              |} in
            if truthy given then (Ok (cnn given), m)
            else
              try_with m (Catalog.call_get_filter_config get_filter_config shape) (λ derived,
                (Ok (cnn derived), <["conv_filters" := derived]> m))
          else (Err (NotImplementedError site_complex_observation), m)
      | _ => (Err (NotImplementedError site_complex_observation), m)
      end)))))).

(** The dict with the two flags forced off, as [get_tokenizer_config]
    builds it. *)
Definition forced_off (c : gmap string PyVal) : gmap string PyVal :=
  <["use_lstm" := PBool false]> (<["use_attention" := PBool false]> c).

(** The attributes of a fully initialised [Catalog]. *)
Definition catalog_attrs (observation_space action_space : Space)
    (merged : loc) (view_requirements : option loc)
    (encoder_config : ModelConfig) (action_dist_cls_dict : gmap string DistCls)
    : gmap string Attr :=
  <["latent_dim" := AVal (output_dim encoder_config)]>
  (<["action_dist_cls_dict" := ADistDict action_dist_cls_dict]>
  (<["encoder_config" := AConfig encoder_config]>
  (<["view_requirements" := AOptRef view_requirements]>
  (<["model_config_dict" := ADictRef merged]>
  (<["action_space" := ASpace action_space]>
  (<["observation_space" := ASpace observation_space]> ∅)))))).

(** An observation space that is neither a 1-D nor a 3-D Box. *)
Definition complex_observation (observation_space : Space) : Prop :=
  ∀ shape dtype,
    observation_space = Box shape dtype →
    length shape ≠ 1%nat ∧ length shape ≠ 3%nat.

(** The keys of the merged dict that [Catalog.get_encoder_config] reads
    (lines 169-220). *)
Definition read_keys : list string :=
  [ "fcnet_activation"; "fcnet_hiddens"; "encoder_latent_dim"; "use_lstm";
    "lstm_cell_size"; "_time_major"; "use_attention"; "conv_filters" ].

(** * Properties *)

(** ** Running the monad *)

Lemma bind_assoc {A B C} (m : M A) (f : A → M B) (g : B → M C) σ :
  bind (bind m f) g σ = bind m (λ x, bind (f x) g) σ.
Proof. unfold bind. destruct (m σ) as [[a|e] σ']; reflexivity. Qed.

Lemma bind_ret {A B} (a : A) (k : A → M B) σ : bind (ret a) k σ = k a σ.
Proof. reflexivity. Qed.

Lemma bind_lift_result {A B} (r : result A) (k : A → M B) σ :
  bind (lift_result r) k σ = match r with Ok a => k a σ | Err e => (Err e, σ) end.
Proof. destruct r; reflexivity. Qed.

Lemma bind_dict_getitem {A} l key (k : PyVal → M A) σ m :
  dicts σ !! l = Some m →
  bind (dict_getitem l key) k σ =
    match m !! key with
    | Some v => k v σ
    | None => (Err (KeyError key), σ)
    end.
Proof.
  intros Hl. unfold dict_getitem, read_dict, bind. rewrite Hl.
  destruct (m !! key); reflexivity.
Qed.

Lemma bind_dict_get {A} l key (k : PyVal → M A) σ m :
  dicts σ !! l = Some m →
  bind (dict_get l key) k σ = k (default PNone (m !! key)) σ.
Proof.
  intros Hl. unfold dict_get, read_dict, bind. rewrite Hl. reflexivity.
Qed.

Lemma bind_dict_setitem {A} l key v (k : unit → M A) σ m :
  dicts σ !! l = Some m →
  bind (dict_setitem l key v) k σ =
    k tt (mkState (<[l := <[key := v]> m]> (dicts σ)) (objs σ)).
Proof.
  intros Hl. unfold dict_setitem, read_dict, bind. rewrite Hl. reflexivity.
Qed.

(** The resolver allocates one dict, merges into it and works on it. *)
Lemma get_encoder_config_run D gfc obs l act vr σ c :
  dicts σ !! l = Some c →
  Catalog.get_encoder_config D gfc obs l act vr σ =
    ((resolve_merged gfc obs (c ∪ D) act vr).1,
     mkState (<[fresh (dom (dicts σ)) := (resolve_merged gfc obs (c ∪ D) act vr).2]>
                (dicts σ)) (objs σ)).
Proof.
  intros Hl. unfold Catalog.get_encoder_config, Catalog.merge_defaults.
  rewrite bind_assoc. unfold bind at 1, read_dict at 1. rewrite Hl.
  unfold bind at 1, new_dict at 1.
  set (l' := fresh (dom (dicts σ))). set (m := c ∪ D).
  set (σ1 := mkState (<[l' := m]> (dicts σ)) (objs σ)).
  assert (H1 : dicts σ1 !! l' = Some m) by apply lookup_insert_eq.
  unfold resolve_merged, try_with, Catalog.getitem.
  rewrite (bind_dict_getitem _ _ _ _ _ H1).
  destruct (m !! "fcnet_activation") as [activation|] eqn:Eact; [|reflexivity].
  rewrite (bind_dict_getitem _ _ _ _ _ H1), Eact.
  rewrite (bind_dict_getitem _ _ _ _ _ H1).
  destruct (m !! "fcnet_hiddens") as [fcnet_hiddens|] eqn:Ehid; [|reflexivity].
  rewrite bind_assoc, (bind_dict_getitem _ _ _ _ _ H1).
  destruct (m !! "encoder_latent_dim") as [x|] eqn:Elat; [|reflexivity].
  assert (Hdim :
    ∀ k : PyVal → M ModelConfig,
      bind (if truthy x then ret x else lift_result (subscript_last fcnet_hiddens)) k σ1
      = match (if truthy x then Ok x else subscript_last fcnet_hiddens) with
        | Ok a => k a σ1
        | Err e => (Err e, σ1)
        end).
  { intros k. destruct (truthy x); [reflexivity | apply bind_lift_result]. }
  rewrite Hdim. clear Hdim.
  destruct (if truthy x then Ok x else subscript_last fcnet_hiddens)
    as [encoder_latent_dim|e] eqn:Edim; [|reflexivity].
  rewrite (bind_dict_getitem _ _ _ _ _ H1).
  destruct (m !! "use_lstm") as [use_lstm|] eqn:Elstm; [|reflexivity].
  destruct (truthy use_lstm).
  { rewrite (bind_dict_getitem _ _ _ _ _ H1).
    destruct (m !! "lstm_cell_size") as [cell|] eqn:Ecell; [|reflexivity].
    rewrite (bind_dict_getitem _ _ _ _ _ H1).
    destruct (m !! "_time_major") as [tm|] eqn:Etm; [|reflexivity].
    rewrite (bind_dict_getitem _ _ _ _ _ H1), Ecell. reflexivity. }
  rewrite (bind_dict_getitem _ _ _ _ _ H1).
  destruct (m !! "use_attention") as [use_attention|] eqn:Eatt; [|reflexivity].
  destruct (truthy use_attention); [reflexivity|].
  destruct obs as [shape dt| | | | | |]; try reflexivity.
  destruct (length shape =? 1)%nat.
  { rewrite (bind_dict_getitem _ _ _ _ _ H1), Elat.
    destruct (truthy x).
    - rewrite (bind_dict_getitem _ _ _ _ _ H1), Ehid.
      destruct shape; reflexivity.
    - rewrite bind_assoc, (bind_dict_getitem _ _ _ _ _ H1), Ehid.
      rewrite bind_lift_result.
      destruct (slice_but_last fcnet_hiddens); [|reflexivity].
      destruct shape; reflexivity. }
  destruct (length shape =? 3)%nat; [|reflexivity].
  rewrite (bind_dict_get _ _ _ _ _ H1).
  destruct (truthy (default PNone (m !! "conv_filters"))) eqn:Egiven; simpl negb; cbv iota.
  - rewrite bind_ret, (bind_dict_getitem _ _ _ _ _ H1).
    destruct (m !! "conv_filters") as [given|] eqn:Econv; [reflexivity|discriminate].
  - rewrite bind_assoc, bind_lift_result.
    unfold Catalog.call_get_filter_config.
    destruct (gfc shape) as [derived|]; [|reflexivity].
    rewrite (bind_dict_setitem _ _ _ _ _ _ H1).
    erewrite bind_dict_getitem by apply lookup_insert_eq.
    rewrite lookup_insert_eq. simpl. rewrite insert_insert_eq. reflexivity.
Qed.

Lemma get_encoder_config_invalid D gfc obs l act vr σ :
  dicts σ !! l = None →
  Catalog.get_encoder_config D gfc obs l act vr σ = (Err InvalidReference, σ).
Proof.
  intros Hl. unfold Catalog.get_encoder_config, Catalog.merge_defaults.
  rewrite bind_assoc. unfold bind at 1, read_dict at 1. rewrite Hl. reflexivity.
Qed.

Lemma get_tokenizer_config_run D gfc space l σ c :
  dicts σ !! l = Some c →
  Catalog.get_tokenizer_config D gfc space l σ =
    Catalog.get_encoder_config D gfc space (fresh (dom (dicts σ))) None None
      (mkState (<[fresh (dom (dicts σ)) := forced_off c]> (dicts σ)) (objs σ)).
Proof.
  intros Hl. unfold Catalog.get_tokenizer_config.
  unfold bind at 1, read_dict at 1. rewrite Hl. reflexivity.
Qed.

Lemma get_tokenizer_config_invalid D gfc space l σ :
  dicts σ !! l = None →
  Catalog.get_tokenizer_config D gfc space l σ = (Err InvalidReference, σ).
Proof.
  intros Hl. unfold Catalog.get_tokenizer_config.
  unfold bind at 1, read_dict at 1. rewrite Hl. reflexivity.
Qed.

Lemma forced_off_merged_lstm D c :
  (forced_off c ∪ D) !! "use_lstm" = Some (PBool false).
Proof.
  apply lookup_union_Some_l. unfold forced_off. apply lookup_insert_eq.
Qed.

Lemma forced_off_merged_attention D c :
  (forced_off c ∪ D) !! "use_attention" = Some (PBool false).
Proof.
  apply lookup_union_Some_l. unfold forced_off.
  rewrite lookup_insert_ne by discriminate. apply lookup_insert_eq.
Qed.

(** With both flags off in the merged dict the body yields no LSTM config
    and does not raise at the attention branch. *)
Lemma resolve_merged_flags_off gfc obs m act vr :
  m !! "use_lstm" = Some (PBool false) →
  m !! "use_attention" = Some (PBool false) →
  (∀ cfg, (resolve_merged gfc obs m act vr).1 ≠ Ok (LSTM cfg)) ∧
  (resolve_merged gfc obs m act vr).1 ≠ Err (NotImplementedError site_use_attention).
Proof.
  intros Hlstm Hatt. unfold resolve_merged, try_with, Catalog.getitem.
  rewrite Hlstm, Hatt. simpl truthy. cbv iota.
  destruct (m !! "fcnet_activation"); [|split; [intros ?|]; discriminate].
  destruct (m !! "fcnet_hiddens") as [h|]; [|split; [intros ?|]; discriminate].
  destruct (m !! "encoder_latent_dim") as [x|]; [|split; [intros ?|]; discriminate].
  destruct (if truthy x then Ok x else subscript_last h) as [d|e] eqn:Ed.
  2:{ split; [intros ?; discriminate|]. simpl. intros [= ->].
      destruct (truthy x); [discriminate|].
      destruct h as [| | | s | [|]]; simpl in Ed; try discriminate.
      destruct s; discriminate. }
  destruct obs as [shape dt| | | | | |];
    try (split; [intros ?|]; discriminate).
  destruct (length shape =? 1)%nat.
  { destruct (if truthy x then Ok h else slice_but_last h) as [hl|e] eqn:Eh.
    - destruct shape; split; try intros ?; discriminate.
    - split; [intros ?; discriminate|]. simpl. intros [= ->].
      destruct (truthy x); [discriminate|].
      destruct h; discriminate. }
  destruct (length shape =? 3)%nat; [|split; [intros ?|]; discriminate].
  simpl. destruct (truthy (default PNone (m !! "conv_filters"))).
  - split; [intros ?|]; discriminate.
  - unfold Catalog.call_get_filter_config.
    destruct (gfc shape) as [f|]; split; try intros ?; discriminate.
Qed.

Lemma bind_setattr {A} self name v (k : unit → M A) σ attrs :
  objs σ !! self = Some attrs →
  bind (setattr self name v) k σ =
    k tt (mkState (dicts σ) (<[self := <[name := v]> attrs]> (objs σ))).
Proof.
  intros Hs. unfold bind, setattr. rewrite Hs. reflexivity.
Qed.

Lemma bind_getattr {A} self name (k : Attr → M A) σ attrs :
  objs σ !! self = Some attrs →
  bind (getattr self name) k σ =
    match attrs !! name with
    | Some v => k v σ
    | None => (Err (AttributeError name), σ)
    end.
Proof.
  intros Hs. unfold bind, getattr. rewrite Hs.
  destruct (attrs !! name); reflexivity.
Qed.

Lemma fresh_dict_ne {V} (ds : gmap loc V) l v :
  ds !! l = Some v → fresh (dom ds) ≠ l.
Proof.
  intros Hl Heq. apply (is_fresh (dom ds)). rewrite Heq.
  apply elem_of_dom. eauto.
Qed.

(** One attribute write on the instance under construction. *)
Ltac step_setattr :=
  rewrite bind_assoc; erewrite bind_setattr by apply lookup_insert_eq;
  simpl dicts; simpl objs; rewrite insert_insert_eq.

(** Construction, step by step, and what is left behind in the store in
    each of its three outcomes: the encoder resolver raises, the action
    resolver raises, or the instance is returned. *)
Lemma Catalog_new_run D gfc obs act l vr σ c :
  dicts σ !! l = Some c →
  let self := fresh (dom (objs σ)) in
  let lm := fresh (dom (dicts σ)) in
  let rm := resolve_merged gfc obs (c ∪ D) (Some act) vr in
  let ds' := <[fresh (dom (<[lm := c ∪ D]> (dicts σ))) := rm.2]>
               (<[lm := c ∪ D]> (dicts σ)) in
  Catalog.new D gfc obs act l vr σ =
    match rm.1 with
    | Err e => (Err e, mkState ds' (<[self :=
         <["view_requirements" := AOptRef vr]>
         (<["model_config_dict" := ADictRef lm]>
         (<["action_space" := ASpace act]>
         (<["observation_space" := ASpace obs]> ∅)))]> (objs σ)))
    | Ok ec =>
        match Catalog.get_action_dist_cls_dict act (Some false) with
        | Err e => (Err e, mkState ds' (<[self :=
             <["encoder_config" := AConfig ec]>
             (<["view_requirements" := AOptRef vr]>
             (<["model_config_dict" := ADictRef lm]>
             (<["action_space" := ASpace act]>
             (<["observation_space" := ASpace obs]> ∅))))]> (objs σ)))
        | Ok ad =>
            (Ok self, mkState ds' (<[self := catalog_attrs obs act lm vr ec ad]> (objs σ)))
        end
    end.
Proof.
  intros Hl self lm rm ds'.
  unfold Catalog.new, Catalog.__init__.
  unfold bind at 1, new_object at 1. fold self.
  step_setattr.
  step_setattr.
  rewrite bind_assoc. unfold Catalog.merge_defaults at 1.
  rewrite bind_assoc. unfold bind at 1, read_dict at 1. simpl dicts. rewrite Hl.
  unfold bind at 1, new_dict at 1. simpl dicts. simpl objs. fold lm.
  step_setattr.
  step_setattr.
  rewrite bind_assoc. unfold bind at 1.
  rewrite (get_encoder_config_run _ _ _ _ _ _ _ c).
  2:{ simpl. rewrite lookup_insert_ne; [exact Hl|]. eapply fresh_dict_ne, Hl. }
  simpl dicts. simpl objs. fold rm. fold ds'.
  destruct (rm.1) as [ec|e]; [|reflexivity].
  step_setattr.
  rewrite bind_assoc, bind_lift_result.
  destruct (Catalog.get_action_dist_cls_dict act (Some false)) as [ad|e]; [|reflexivity].
  step_setattr.
  rewrite bind_assoc.
  erewrite bind_getattr by apply lookup_insert_eq.
  rewrite lookup_insert_ne by discriminate. rewrite lookup_insert_eq.
  erewrite bind_setattr by apply lookup_insert_eq.
  simpl dicts; simpl objs; rewrite insert_insert_eq.
  reflexivity.
Qed.
Lemma Catalog_new_invalid D gfc obs act l vr σ :
  dicts σ !! l = None →
  Catalog.new D gfc obs act l vr σ =
    (Err InvalidReference,
     mkState (dicts σ) (<[fresh (dom (objs σ)) :=
       <["action_space" := ASpace act]>
       (<["observation_space" := ASpace obs]> ∅)]> (objs σ))).
Proof.
  intros Hl. unfold Catalog.new, Catalog.__init__.
  unfold bind at 1, new_object at 1.
  step_setattr. step_setattr.
  rewrite bind_assoc. unfold Catalog.merge_defaults at 1.
  rewrite bind_assoc. unfold bind at 1, read_dict at 1. simpl dicts. rewrite Hl.
  reflexivity.
Qed.

(** Construction writes to the new instance only. *)
Lemma Catalog_new_frame D gfc obs act l vr σ o :
  o ≠ fresh (dom (objs σ)) →
  objs (Catalog.new D gfc obs act l vr σ).2 !! o = objs σ !! o.
Proof.
  intros Hne. destruct (dicts σ !! l) as [c|] eqn:Hl.
  - rewrite (Catalog_new_run _ _ _ _ _ _ _ c Hl). cbv zeta.
    destruct ((resolve_merged gfc obs (c ∪ D) (Some act) vr).1) as [ec|e].
    + destruct (Catalog.get_action_dist_cls_dict act (Some false)) as [ad|e];
        simpl; apply lookup_insert_ne, not_eq_sym, Hne.
    + simpl. apply lookup_insert_ne, not_eq_sym, Hne.
  - rewrite (Catalog_new_invalid _ _ _ _ _ _ _ Hl). simpl.
    apply lookup_insert_ne, not_eq_sym, Hne.
Qed.

Lemma Catalog_new_success D gfc obs act l vr σ self σ' :
  Catalog.new D gfc obs act l vr σ = (Ok self, σ') →
  ∃ c ec ad,
    dicts σ !! l = Some c ∧
    (resolve_merged gfc obs (c ∪ D) (Some act) vr).1 = Ok ec ∧
    Catalog.get_action_dist_cls_dict act (Some false) = Ok ad ∧
    self = fresh (dom (objs σ)) ∧
    objs σ' =
      <[self := catalog_attrs obs act (fresh (dom (dicts σ))) vr ec ad]> (objs σ) ∧
    dicts σ' =
      <[fresh (dom (<[fresh (dom (dicts σ)) := c ∪ D]> (dicts σ))) :=
          (resolve_merged gfc obs (c ∪ D) (Some act) vr).2]>
        (<[fresh (dom (dicts σ)) := c ∪ D]> (dicts σ)).
Proof.
  intros Hnew. destruct (dicts σ !! l) as [c|] eqn:Hl.
  - rewrite (Catalog_new_run _ _ _ _ _ _ _ c Hl) in Hnew. cbv zeta in Hnew.
    destruct ((resolve_merged gfc obs (c ∪ D) (Some act) vr).1) as [ec|e] eqn:Hec;
      [|discriminate].
    destruct (Catalog.get_action_dist_cls_dict act (Some false)) as [ad|e] eqn:Had;
      [|discriminate].
    injection Hnew as <- <-. exists c, ec, ad. simpl. rewrite Hec.
    repeat split; reflexivity.
  - rewrite (Catalog_new_invalid _ _ _ _ _ _ _ Hl) in Hnew. discriminate.
Qed.

(** Replaces a run of the resolver on a known dict by its body over the
    merged content, ready for the lookups to be rewritten. *)
Ltac run_resolver Hl :=
  rewrite (get_encoder_config_run _ _ _ _ _ _ _ _ Hl); simpl fst;
  unfold resolve_merged, try_with, Catalog.getitem.

(** ** The MLP path *)

(** C1: for a 1-D Box observation space, with [use_lstm] and
    [use_attention] false in the merged configuration, the resolver returns
    an MLP config.  When [encoder_latent_dim] is a positive integer, the
    output width is that integer and the hidden widths are [fcnet_hiddens]
    as given; when it is unset (or otherwise false), the output width is
    the last entry of [fcnet_hiddens] and the hidden widths are
    [fcnet_hiddens] without that entry. *)
Theorem C1_mlp_latent_dim_rule :
  ∀ D gfc σ l c (width : Z) dtype act vr activation hiddens latent v_lstm v_att,
    dicts σ !! l = Some c →
    (c ∪ D) !! "fcnet_activation" = Some activation →
    (c ∪ D) !! "fcnet_hiddens" = Some (PList hiddens) →
    (c ∪ D) !! "encoder_latent_dim" = Some latent →
    (c ∪ D) !! "use_lstm" = Some v_lstm → truthy v_lstm = false →
    (c ∪ D) !! "use_attention" = Some v_att → truthy v_att = false →
    (∀ n, latent = PInt n → 0 < n →
       (Catalog.get_encoder_config D gfc (Box [width] dtype) l act vr σ).1 =
         Ok (MLP {|
           MLPEncoderConfig.input_dim := width;
           MLPEncoderConfig.hidden_layer_dims := PList hiddens;
           MLPEncoderConfig.hidden_layer_activation := activation;
           MLPEncoderConfig.output_dim := PInt n;
           MLPEncoderConfig.output_activation := activation |}))
    ∧
    (truthy latent = false → hiddens ≠ [] →
       (Catalog.get_encoder_config D gfc (Box [width] dtype) l act vr σ).1 =
         Ok (MLP {|
           MLPEncoderConfig.input_dim := width;
           MLPEncoderConfig.hidden_layer_dims := PList (removelast hiddens);
           MLPEncoderConfig.hidden_layer_activation := activation;
           MLPEncoderConfig.output_dim := List.last hiddens PNone;
           MLPEncoderConfig.output_activation := activation |})).
Proof.
  intros D gfc σ l c width dtype act vr activation hiddens latent v_lstm v_att
    Hl Hact Hhid Hlat Hlstm Tlstm Hatt Tatt.
  run_resolver Hl.
  rewrite Hact, Hhid, Hlat, Hlstm, Hatt, Tlstm, Tatt.
  split.
  - intros n -> Hn. simpl truthy.
    replace (Z.eqb n 0) with false by (symmetry; apply Z.eqb_neq; lia).
    reflexivity.
  - intros Tlat Hne. rewrite Tlat. simpl.
    destruct hiddens as [|h hs]; [contradiction|]. reflexivity.
Qed.

(** The two configurations of the legacy rule: [fcnet_hiddens = [64, 32]]
    over a box of width 8, first with [encoder_latent_dim] left at its
    default, then set to 16. *)
Lemma C1_mlp_latent_dim_rule_witness :
  (Catalog.get_encoder_config sample_defaults sample_filter_config
     (Box [8] float32) 1%positive None None
     (store_with (list_to_map [("fcnet_hiddens", PList [PInt 64; PInt 32])]))).1 =
    Ok (MLP {|
      MLPEncoderConfig.input_dim := 8;
      MLPEncoderConfig.hidden_layer_dims := PList [PInt 64];
      MLPEncoderConfig.hidden_layer_activation := PStr "tanh";
      MLPEncoderConfig.output_dim := PInt 32;
      MLPEncoderConfig.output_activation := PStr "tanh" |})
  ∧
  (Catalog.get_encoder_config sample_defaults sample_filter_config
     (Box [8] float32) 1%positive None None
     (store_with (list_to_map [("fcnet_hiddens", PList [PInt 64; PInt 32]);
                               ("encoder_latent_dim", PInt 16)]))).1 =
    Ok (MLP {|
      MLPEncoderConfig.input_dim := 8;
      MLPEncoderConfig.hidden_layer_dims := PList [PInt 64; PInt 32];
      MLPEncoderConfig.hidden_layer_activation := PStr "tanh";
      MLPEncoderConfig.output_dim := PInt 16;
      MLPEncoderConfig.output_activation := PStr "tanh" |}).
Proof.
  split.
  - refine (proj2 (C1_mlp_latent_dim_rule sample_defaults sample_filter_config
      (store_with (list_to_map [("fcnet_hiddens", PList [PInt 64; PInt 32])]))
      1%positive (list_to_map [("fcnet_hiddens", PList [PInt 64; PInt 32])])
      8 float32 None None (PStr "tanh") [PInt 64; PInt 32] PNone
      (PBool false) (PBool false) _ _ _ _ _ _ _ _) _ _);
      first [ vm_compute; reflexivity | discriminate ].
  - refine (proj1 (C1_mlp_latent_dim_rule sample_defaults sample_filter_config
      (store_with (list_to_map [("fcnet_hiddens", PList [PInt 64; PInt 32]);
                                ("encoder_latent_dim", PInt 16)]))
      1%positive (list_to_map [("fcnet_hiddens", PList [PInt 64; PInt 32]);
                               ("encoder_latent_dim", PInt 16)])
      8 float32 None None (PStr "tanh") [PInt 64; PInt 32] (PInt 16)
      (PBool false) (PBool false) _ _ _ _ _ _ _ _) 16 _ _);
      first [ vm_compute; reflexivity | discriminate ].
Defined.

(** ** The action distribution resolver *)

(** Whatever the resolver returns has an entry for torch and for tf, and
    for nothing else. *)
Lemma get_action_dist_cls_dict_dom action_space deterministic d :
  Catalog.get_action_dist_cls_dict action_space deterministic = Ok d →
  dom d = ({[ "torch"; "tf" ]} : gset string).
Proof.
  unfold Catalog.get_action_dist_cls_dict.
  destruct action_space as [shape dtype| | | | | |]; try discriminate.
  - destruct (char_in dtype np_typecodes_AllInteger); [discriminate|].
    destruct (1 <? length shape)%nat; [discriminate|].
    destruct (default false deterministic);
      intros [= <-]; vm_compute; reflexivity.
  - intros [= <-]; vm_compute; reflexivity.
Qed.

(** C5: for a 1-D Box action space whose dtype is not an integer type (a
    float dtype among them), the resolver returns the diagonal-Gaussian
    family when [deterministic] is false and the deterministic family when
    it is true; and whenever the resolver succeeds, on any space, the
    mapping it returns has an entry for exactly the tags torch and tf. *)
Theorem C5_box_action_families :
  (∀ n dtype,
     char_in dtype np_typecodes_AllInteger = false →
     Catalog.get_action_dist_cls_dict (Box [n] dtype) (Some false) =
       Ok {[ "torch" := TorchDiagGaussian; "tf" := TfDiagGaussian ]}
     ∧ Catalog.get_action_dist_cls_dict (Box [n] dtype) (Some true) =
       Ok {[ "torch" := TorchDeterministic; "tf" := TfDeterministic ]})
  ∧
  (∀ action_space deterministic d,
     Catalog.get_action_dist_cls_dict action_space deterministic = Ok d →
     dom d = ({[ "torch"; "tf" ]} : gset string)).
Proof.
  split.
  - intros n dtype Hfloat. unfold Catalog.get_action_dist_cls_dict.
    rewrite Hfloat. split; vm_compute; reflexivity.
  - apply get_action_dist_cls_dict_dom.
Qed.

Lemma C5_box_action_families_witness :
  Catalog.get_action_dist_cls_dict (Box [4] float32) (Some false) =
    Ok {[ "torch" := TorchDiagGaussian; "tf" := TfDiagGaussian ]}
  ∧ Catalog.get_action_dist_cls_dict (Box [4] float32) (Some true) =
    Ok {[ "torch" := TorchDeterministic; "tf" := TfDeterministic ]}
  ∧ dom ({[ "torch" := TorchDiagGaussian; "tf" := TfDiagGaussian ]}
           : gmap string DistCls) = ({[ "torch"; "tf" ]} : gset string).
Proof.
  pose proof (proj1 C5_box_action_families 4 float32 eq_refl) as [Hg Hd].
  split; [exact Hg|]. split; [exact Hd|].
  exact (proj2 C5_box_action_families (Box [4] float32) (Some false) _ Hg).
Defined.

(** C6: for a Discrete action space of any size the resolver returns the
    categorical family, whichever value [deterministic] has (left out,
    [None], false or true). *)
Theorem C6_discrete_action_categorical :
  ∀ n deterministic,
    Catalog.get_action_dist_cls_dict (Discrete n) deterministic =
      Ok {[ "torch" := TorchCategorical; "tf" := TfCategorical ]}.
Proof.
  intros n deterministic. vm_compute. reflexivity.
Qed.

(** ** Rejected inputs *)

(** C4, as the claim has it, fails: a nested observation space is not
    rejected when [use_lstm] is on.  The LSTM branch comes first and does
    not look at the observation space. *)
Lemma C4_counterexample_nested_observation_with_lstm :
  (Catalog.get_encoder_config sample_defaults sample_filter_config
     (Dict [("image", Box [84; 84; 4] float32); ("speed", Box [1] float32)])
     1%positive None None
     (store_with (list_to_map [("use_lstm", PBool true)]))).1 =
    Ok (LSTM {|
      LSTMEncoderConfig.hidden_dim := PInt 256;
      LSTMEncoderConfig.batch_first := true;
      LSTMEncoderConfig.num_layers := 1;
      LSTMEncoderConfig.output_dim := PInt 256;
      LSTMEncoderConfig.output_activation := PStr "tanh";
      LSTMEncoderConfig.observation_space :=
        Dict [("image", Box [84; 84; 4] float32); ("speed", Box [1] float32)];
      LSTMEncoderConfig.action_space := None;
      LSTMEncoderConfig.view_requirements_dict := None;
      LSTMEncoderConfig.get_tokenizer_config := Catalog_get_tokenizer_config |})
  ∧
  ∀ site,
    (Catalog.get_encoder_config sample_defaults sample_filter_config
       (Dict [("image", Box [84; 84; 4] float32); ("speed", Box [1] float32)])
       1%positive None None
       (store_with (list_to_map [("use_lstm", PBool true)]))).1 ≠
      Err (NotImplementedError site).
Proof. split; [|intros site]; vm_compute; [reflexivity | discriminate]. Qed.

(** C4, amended: the action resolver raises [ValueError] on an
    integer-typed Box, [UnsupportedSpaceException] on a non-integer Box
    with more than one dimension, [NotImplementedError] on Tuple, Dict,
    Simplex, MultiDiscrete and unrecognised spaces, and accepts every
    other space.  The encoder resolver, once the default latent dimension
    is resolved and with [use_lstm] false, raises [NotImplementedError] at
    the attention branch when [use_attention] is true, and otherwise at
    the last branch when the observation space is neither a 1-D nor a 3-D
    Box. *)
Theorem C4_rejected_inputs :
  (∀ shape dtype deterministic,
     char_in dtype np_typecodes_AllInteger = true →
     Catalog.get_action_dist_cls_dict (Box shape dtype) deterministic =
       Err ValueError)
  ∧
  (∀ shape dtype deterministic,
     char_in dtype np_typecodes_AllInteger = false →
     (1 < length shape)%nat →
     Catalog.get_action_dist_cls_dict (Box shape dtype) deterministic =
       Err UnsupportedSpaceException)
  ∧
  (∀ deterministic,
     (∀ spaces, Catalog.get_action_dist_cls_dict (Tuple spaces) deterministic =
        Err (NotImplementedError site_tuple_dict_action)) ∧
     (∀ spaces, Catalog.get_action_dist_cls_dict (Dict spaces) deterministic =
        Err (NotImplementedError site_tuple_dict_action)) ∧
     (∀ shape, Catalog.get_action_dist_cls_dict (Simplex shape) deterministic =
        Err (NotImplementedError site_simplex_action)) ∧
     (∀ nvec, Catalog.get_action_dist_cls_dict (MultiDiscrete nvec) deterministic =
        Err (NotImplementedError site_multidiscrete_action)) ∧
     (∀ repr, Catalog.get_action_dist_cls_dict (OtherSpace repr) deterministic =
        Err (NotImplementedError site_unknown_action)))
  ∧
  (∀ deterministic,
     (∀ shape dtype,
        char_in dtype np_typecodes_AllInteger = false →
        (length shape ≤ 1)%nat →
        ∃ d, Catalog.get_action_dist_cls_dict (Box shape dtype) deterministic = Ok d) ∧
     (∀ n, ∃ d, Catalog.get_action_dist_cls_dict (Discrete n) deterministic = Ok d))
  ∧
  (∀ D gfc σ l c observation_space act vr activation hiddens latent dim
       v_lstm v_att,
     dicts σ !! l = Some c →
     (c ∪ D) !! "fcnet_activation" = Some activation →
     (c ∪ D) !! "fcnet_hiddens" = Some hiddens →
     (c ∪ D) !! "encoder_latent_dim" = Some latent →
     (if truthy latent then Ok latent else subscript_last hiddens) = Ok dim →
     (c ∪ D) !! "use_lstm" = Some v_lstm → truthy v_lstm = false →
     (c ∪ D) !! "use_attention" = Some v_att →
     (truthy v_att = true →
        (Catalog.get_encoder_config D gfc observation_space l act vr σ).1 =
          Err (NotImplementedError site_use_attention))
     ∧
     (truthy v_att = false → complex_observation observation_space →
        (Catalog.get_encoder_config D gfc observation_space l act vr σ).1 =
          Err (NotImplementedError site_complex_observation))).
Proof.
  split; [|split; [|split; [|split]]].
  - intros shape dtype deterministic Hint.
    unfold Catalog.get_action_dist_cls_dict. rewrite Hint. reflexivity.
  - intros shape dtype deterministic Hfloat Hdims.
    unfold Catalog.get_action_dist_cls_dict. rewrite Hfloat.
    replace (1 <? length shape)%nat with true
      by (symmetry; apply Nat.ltb_lt; exact Hdims).
    reflexivity.
  - intros deterministic. repeat split; intros; reflexivity.
  - intros deterministic. split.
    + intros shape dtype Hfloat Hdims.
      unfold Catalog.get_action_dist_cls_dict. rewrite Hfloat.
      replace (1 <? length shape)%nat with false
        by (symmetry; apply Nat.ltb_ge; exact Hdims).
      destruct (default false deterministic); eexists; vm_compute; reflexivity.
    + intros n. eexists. vm_compute. reflexivity.
  - intros D gfc σ l c observation_space act vr activation hiddens latent dim
      v_lstm v_att Hl Hact Hhid Hlat Hdim Hlstm Tlstm Hatt.
    run_resolver Hl.
    rewrite Hact, Hhid, Hlat, Hdim, Hlstm, Tlstm, Hatt.
    split.
    + intros ->. reflexivity.
    + intros -> Hcomplex.
      destruct observation_space as [shape dtype| | | | | |]; try reflexivity.
      destruct (Hcomplex shape dtype eq_refl) as [H1 H3].
      replace (length shape =? 1)%nat with false
        by (symmetry; apply Nat.eqb_neq; exact H1).
      replace (length shape =? 3)%nat with false
        by (symmetry; apply Nat.eqb_neq; exact H3).
      reflexivity.
Qed.

Lemma C4_rejected_inputs_witness :
  Catalog.get_action_dist_cls_dict (Box [4] int64) None = Err ValueError
  ∧ Catalog.get_action_dist_cls_dict (Box [4; 2] float32) None =
      Err UnsupportedSpaceException
  ∧ (∃ d, Catalog.get_action_dist_cls_dict (Box [4] float32) None = Ok d)
  ∧ (Catalog.get_encoder_config sample_defaults sample_filter_config
       (Box [8] float32) 1%positive None None
       (store_with (list_to_map [("use_attention", PBool true)]))).1 =
      Err (NotImplementedError site_use_attention)
  ∧ (Catalog.get_encoder_config sample_defaults sample_filter_config
       (Dict [("image", Box [84; 84; 4] float32); ("speed", Box [1] float32)])
       1%positive None None (store_with ∅)).1 =
      Err (NotImplementedError site_complex_observation).
Proof.
  destruct C4_rejected_inputs as (Hint & Hdims & _ & Hok & Henc).
  split; [exact (Hint [4] int64 None eq_refl)|].
  split; [apply (Hdims [4; 2] float32 None eq_refl); vm_compute; lia|].
  split; [apply (proj1 (Hok None) [4] float32 eq_refl); vm_compute; lia|].
  split.
  - refine (proj1 (Henc sample_defaults sample_filter_config
      (store_with (list_to_map [("use_attention", PBool true)])) 1%positive
      (list_to_map [("use_attention", PBool true)]) (Box [8] float32) None None
      (PStr "tanh") (PList [PInt 256; PInt 256]) PNone (PInt 256)
      (PBool false) (PBool true) _ _ _ _ _ _ _ _) _);
      vm_compute; reflexivity.
  - refine (proj2 (Henc sample_defaults sample_filter_config
      (store_with ∅) 1%positive ∅
      (Dict [("image", Box [84; 84; 4] float32); ("speed", Box [1] float32)])
      None None
      (PStr "tanh") (PList [PInt 256; PInt 256]) PNone (PInt 256)
      (PBool false) (PBool false) _ _ _ _ _ _ _ _) _ _);
      first [ vm_compute; reflexivity | intros shape dtype; discriminate ].
Defined.

(** ** The CNN path and the resolver's own copy of the configuration *)

Lemma fresh_insert_ne {V} (ds : gmap loc V) v :
  fresh (dom (<[fresh (dom ds) := v]> ds)) ≠ fresh (dom ds).
Proof.
  eapply fresh_dict_ne. apply lookup_insert_eq.
Qed.

(** Every dict of the store is as it was after the resolver has run. *)
Lemma get_encoder_config_frame D gfc obs l act vr σ l0 d0 :
  dicts σ !! l0 = Some d0 →
  dicts (Catalog.get_encoder_config D gfc obs l act vr σ).2 !! l0 = Some d0.
Proof.
  intros H0. destruct (dicts σ !! l) as [c|] eqn:Hl.
  - rewrite (get_encoder_config_run _ _ _ _ _ _ _ c Hl). simpl.
    rewrite lookup_insert_ne; [exact H0|]. eapply fresh_dict_ne, H0.
  - rewrite get_encoder_config_invalid by exact Hl. exact H0.
Qed.

(** C2, as the claim has it, fails: after a Catalog is built over an
    (84, 84, 4) box with no [conv_filters] supplied, the encoder config
    carries the derived filters, but the Catalog's stored
    [model_config_dict] still has [conv_filters] at its default [None],
    and the dict the caller passed in still has no such key.  The derived
    filters sit in the dict the resolver merged for itself (reference 3),
    which nothing refers to once it returns. *)
Lemma C2_counterexample_filters_not_visible :
  let run :=
    Catalog.new sample_defaults sample_filter_config
      (Box [84; 84; 4] float32) (Discrete 6) 1%positive None (store_with ∅) in
  let derived := PList [filter_spec 16 8 4; filter_spec 32 4 2; filter_spec 256 11 1] in
  run.1 = Ok 1%positive
  ∧ (getattr 1%positive "encoder_config" run.2).1 =
      Ok (AConfig (CNN {|
        CNNEncoderConfig.input_dims := [84; 84; 4];
        CNNEncoderConfig.filter_specifiers := derived;
        CNNEncoderConfig.filter_layer_activation := PStr "tanh";
        CNNEncoderConfig.output_activation := PStr "tanh";
        CNNEncoderConfig.output_dim := PInt 256 |}))
  ∧ (getattr 1%positive "model_config_dict" run.2).1 = Ok (ADictRef 2%positive)
  ∧ (dict_getitem 2%positive "conv_filters" run.2).1 = Ok PNone
  ∧ (dict_getitem 1%positive "conv_filters" run.2).1 = Err (KeyError "conv_filters")
  ∧ (dict_getitem 3%positive "conv_filters" run.2).1 = Ok derived.
Proof. vm_compute. repeat split; reflexivity. Qed.

(** C2, amended: for a 3-D Box observation space, with [use_lstm] and
    [use_attention] false, no (true) [conv_filters] in the merged
    configuration and the default latent dimension resolved, the resolver
    returns a CNN config whose filter specifiers are what
    [get_filter_config] gives for the shape.  The derived filters are
    written to the dict the resolver merged for itself; every dict that
    existed before the call, the caller's included, keeps its content, and
    the [model_config_dict] a Catalog stores is the merge of defaults and
    the caller's entries, without the derived filters. *)
Theorem C2_cnn_filters_internal_copy :
  ∀ D gfc σ l c shape dtype act vr activation hiddens latent dim
    v_lstm v_att filters,
    dicts σ !! l = Some c →
    length shape = 3%nat →
    (c ∪ D) !! "fcnet_activation" = Some activation →
    (c ∪ D) !! "fcnet_hiddens" = Some hiddens →
    (c ∪ D) !! "encoder_latent_dim" = Some latent →
    (if truthy latent then Ok latent else subscript_last hiddens) = Ok dim →
    (c ∪ D) !! "use_lstm" = Some v_lstm → truthy v_lstm = false →
    (c ∪ D) !! "use_attention" = Some v_att → truthy v_att = false →
    truthy (default PNone ((c ∪ D) !! "conv_filters")) = false →
    gfc shape = Some filters →
    (Catalog.get_encoder_config D gfc (Box shape dtype) l act vr σ).1 =
      Ok (CNN {|
        CNNEncoderConfig.input_dims := shape;
        CNNEncoderConfig.filter_specifiers := filters;
        CNNEncoderConfig.filter_layer_activation := activation;
        CNNEncoderConfig.output_activation := activation;
        CNNEncoderConfig.output_dim := dim |})
    ∧ dicts (Catalog.get_encoder_config D gfc (Box shape dtype) l act vr σ).2
        !! fresh (dom (dicts σ)) = Some (<["conv_filters" := filters]> (c ∪ D))
    ∧ (∀ l0 d0,
         dicts σ !! l0 = Some d0 →
         dicts (Catalog.get_encoder_config D gfc (Box shape dtype) l act vr σ).2
           !! l0 = Some d0)
    ∧ (∀ action_space self σ',
         Catalog.new D gfc (Box shape dtype) action_space l vr σ = (Ok self, σ') →
         ∃ attrs stored,
           objs σ' !! self = Some attrs ∧
           attrs !! "model_config_dict" = Some (ADictRef stored) ∧
           dicts σ' !! stored = Some (c ∪ D) ∧
           dicts σ' !! l = Some c).
Proof.
  intros D gfc σ l c shape dtype act vr activation hiddens latent dim
    v_lstm v_att filters Hl Hlen Hact Hhid Hlat Hdim Hlstm Tlstm Hatt Tatt
    Hconv Hgfc.
  assert (Hres : ∀ a,
    resolve_merged gfc (Box shape dtype) (c ∪ D) a vr =
      (Ok (CNN {|
         CNNEncoderConfig.input_dims := shape;
         CNNEncoderConfig.filter_specifiers := filters;
         CNNEncoderConfig.filter_layer_activation := activation;
         CNNEncoderConfig.output_activation := activation;
         CNNEncoderConfig.output_dim := dim |}),
       <["conv_filters" := filters]> (c ∪ D))).
  { intros a. unfold resolve_merged, try_with, Catalog.getitem.
    rewrite Hact, Hhid, Hlat, Hdim, Hlstm, Tlstm, Hatt, Tatt, Hlen. simpl.
    rewrite Hconv. unfold Catalog.call_get_filter_config. rewrite Hgfc.
    reflexivity. }
  split; [|split; [|split]].
  - rewrite (get_encoder_config_run _ _ _ _ _ _ _ c Hl), Hres. reflexivity.
  - rewrite (get_encoder_config_run _ _ _ _ _ _ _ c Hl), Hres. simpl.
    apply lookup_insert_eq.
  - intros l0 d0. apply get_encoder_config_frame.
  - intros action_space self σ' Hnew.
    apply Catalog_new_success in Hnew
      as (c' & ec & ad & Hl' & _ & _ & Hself & Hobjs & Hdicts).
    rewrite Hl in Hl'. injection Hl' as <-.
    eexists _, _. rewrite Hobjs, Hdicts.
    split; [apply lookup_insert_eq|].
    split; [reflexivity|].
    split.
    + rewrite lookup_insert_ne by apply fresh_insert_ne.
      apply lookup_insert_eq.
    + rewrite lookup_insert_ne.
      2:{ eapply fresh_dict_ne. rewrite lookup_insert_ne; [exact Hl|].
          eapply fresh_dict_ne, Hl. }
      rewrite lookup_insert_ne; [exact Hl|]. eapply fresh_dict_ne, Hl.
Qed.

Lemma C2_cnn_filters_internal_copy_witness :
  (Catalog.get_encoder_config sample_defaults sample_filter_config
     (Box [84; 84; 4] float32) 1%positive None None (store_with ∅)).1 =
    Ok (CNN {|
      CNNEncoderConfig.input_dims := [84; 84; 4];
      CNNEncoderConfig.filter_specifiers :=
        PList [filter_spec 16 8 4; filter_spec 32 4 2; filter_spec 256 11 1];
      CNNEncoderConfig.filter_layer_activation := PStr "tanh";
      CNNEncoderConfig.output_activation := PStr "tanh";
      CNNEncoderConfig.output_dim := PInt 256 |})
  ∧ dicts (Catalog.get_encoder_config sample_defaults sample_filter_config
             (Box [84; 84; 4] float32) 1%positive None None (store_with ∅)).2
      !! 1%positive = Some ∅.
Proof.
  assert (H := C2_cnn_filters_internal_copy sample_defaults sample_filter_config
    (store_with ∅) 1%positive ∅ [84; 84; 4] float32 None None
    (PStr "tanh") (PList [PInt 256; PInt 256]) PNone (PInt 256)
    (PBool false) (PBool false)
    (PList [filter_spec 16 8 4; filter_spec 32 4 2; filter_spec 256 11 1])).
  destruct H as (Hcfg & _ & Hframe & _); try (vm_compute; reflexivity).
  split; [exact Hcfg|]. apply Hframe. vm_compute. reflexivity.
Defined.

(** ** The LSTM path and its tokenizer *)

(** C3, as the claim has it, fails: the default latent dimension
    ([encoder_latent_dim or fcnet_hiddens[-1]], lines 172-174) is resolved
    before any branch is taken, so with [use_lstm] on, [encoder_latent_dim]
    unset and an empty [fcnet_hiddens] the resolver raises [IndexError]
    and returns no LSTM config. *)
Lemma C3_counterexample_lstm_empty_hiddens :
  (Catalog.get_encoder_config sample_defaults sample_filter_config
     (Box [4] float32) 1%positive None None
     (store_with (list_to_map [("use_lstm", PBool true);
                               ("fcnet_hiddens", PList [])]))).1 =
    Err IndexError.
Proof. vm_compute. reflexivity. Qed.

(** What a tokenizer call returns, with the store left out. *)
Lemma get_tokenizer_config_result D gfc space l σ :
  (Catalog.get_tokenizer_config D gfc space l σ).1 =
    match dicts σ !! l with
    | Some c => (resolve_merged gfc space (forced_off c ∪ D) None None).1
    | None => Err InvalidReference
    end.
Proof.
  destruct (dicts σ !! l) as [c|] eqn:Hl.
  - rewrite (get_tokenizer_config_run _ _ _ _ _ c Hl).
    rewrite (get_encoder_config_run _ _ _ _ _ _ _ (forced_off c));
      [reflexivity | apply lookup_insert_eq].
  - rewrite get_tokenizer_config_invalid by exact Hl. reflexivity.
Qed.

(** C3, amended: when [use_lstm] is true and the default latent dimension
    resolves, the resolver returns an LSTM config with hidden width and
    output dimension [lstm_cell_size], batch-first layout the negation of
    [_time_major], one layer, output activation [fcnet_activation], and
    [get_tokenizer_config] as the stored tokenizer resolver.  Calling that
    resolver, on any space and any configuration, runs the encoder
    resolver on a new dict in which [use_lstm] and [use_attention] are
    false, and never yields an LSTM config nor the failure of the
    attention branch, whatever the flags of the configuration passed. *)
Theorem C3_lstm_config_and_tokenizer :
  ∀ D gfc,
    (∀ σ l c observation_space act vr activation hiddens latent dim
       v_lstm cell time_major,
       dicts σ !! l = Some c →
       (c ∪ D) !! "fcnet_activation" = Some activation →
       (c ∪ D) !! "fcnet_hiddens" = Some hiddens →
       (c ∪ D) !! "encoder_latent_dim" = Some latent →
       (if truthy latent then Ok latent else subscript_last hiddens) = Ok dim →
       (c ∪ D) !! "use_lstm" = Some v_lstm → truthy v_lstm = true →
       (c ∪ D) !! "lstm_cell_size" = Some cell →
       (c ∪ D) !! "_time_major" = Some time_major →
       (Catalog.get_encoder_config D gfc observation_space l act vr σ).1 =
         Ok (LSTM {|
           LSTMEncoderConfig.hidden_dim := cell;
           LSTMEncoderConfig.batch_first := negb (truthy time_major);
           LSTMEncoderConfig.num_layers := 1;
           LSTMEncoderConfig.output_dim := cell;
           LSTMEncoderConfig.output_activation := activation;
           LSTMEncoderConfig.observation_space := observation_space;
           LSTMEncoderConfig.action_space := act;
           LSTMEncoderConfig.view_requirements_dict := vr;
           LSTMEncoderConfig.get_tokenizer_config := Catalog_get_tokenizer_config |}))
    ∧
    (∀ space l σ c,
       dicts σ !! l = Some c →
       Catalog.call D gfc Catalog_get_tokenizer_config space l σ =
         Catalog.get_encoder_config D gfc space (fresh (dom (dicts σ))) None None
           (mkState (<[fresh (dom (dicts σ)) :=
                        <["use_lstm" := PBool false]>
                          (<["use_attention" := PBool false]> c)]> (dicts σ))
                    (objs σ)))
    ∧
    (∀ space l σ,
       (∀ cfg, (Catalog.call D gfc Catalog_get_tokenizer_config space l σ).1 ≠
                 Ok (LSTM cfg))
       ∧ (Catalog.call D gfc Catalog_get_tokenizer_config space l σ).1 ≠
           Err (NotImplementedError site_use_attention)).
Proof.
  intros D gfc. split; [|split].
  - intros σ l c observation_space act vr activation hiddens latent dim
      v_lstm cell time_major Hl Hact Hhid Hlat Hdim Hlstm Tlstm Hcell Htm.
    run_resolver Hl.
    rewrite Hact, Hhid, Hlat, Hdim, Hlstm, Tlstm, Hcell, Htm. reflexivity.
  - intros space l σ c Hl. simpl.
    apply (get_tokenizer_config_run _ _ _ _ _ c Hl).
  - intros space l σ. simpl Catalog.call.
    rewrite get_tokenizer_config_result.
    destruct (dicts σ !! l) as [c|].
    + apply resolve_merged_flags_off.
      * apply forced_off_merged_lstm.
      * apply forced_off_merged_attention.
    + split; [intros cfg|]; discriminate.
Qed.

(** An LSTM configuration that also asks for attention, and the tokenizer
    resolved from that same configuration: an MLP config. *)
Lemma C3_lstm_config_and_tokenizer_witness :
  (Catalog.get_encoder_config sample_defaults sample_filter_config
     (Box [4] float32) 1%positive (Some (Discrete 2)) None
     (store_with (list_to_map [("use_lstm", PBool true);
                               ("use_attention", PBool true)]))).1 =
    Ok (LSTM {|
      LSTMEncoderConfig.hidden_dim := PInt 256;
      LSTMEncoderConfig.batch_first := true;
      LSTMEncoderConfig.num_layers := 1;
      LSTMEncoderConfig.output_dim := PInt 256;
      LSTMEncoderConfig.output_activation := PStr "tanh";
      LSTMEncoderConfig.observation_space := Box [4] float32;
      LSTMEncoderConfig.action_space := Some (Discrete 2);
      LSTMEncoderConfig.view_requirements_dict := None;
      LSTMEncoderConfig.get_tokenizer_config := Catalog_get_tokenizer_config |})
  ∧
  (Catalog.call sample_defaults sample_filter_config
     Catalog_get_tokenizer_config (Box [4] float32) 1%positive
     (store_with (list_to_map [("use_lstm", PBool true);
                               ("use_attention", PBool true)]))).1 =
    (Catalog.get_encoder_config sample_defaults sample_filter_config
       (Box [4] float32) 2%positive None None
       (mkState
          (<[2%positive :=
               <["use_lstm" := PBool false]>
                 (<["use_attention" := PBool false]>
                    (list_to_map [("use_lstm", PBool true);
                                  ("use_attention", PBool true)]))]>
             {[ 1%positive :=
                  list_to_map [("use_lstm", PBool true);
                               ("use_attention", PBool true)] ]})
          ∅)).1.
Proof.
  destruct (C3_lstm_config_and_tokenizer sample_defaults sample_filter_config)
    as (Hlstm & Htok & _).
  split.
  - refine (Hlstm
      (store_with (list_to_map [("use_lstm", PBool true);
                                ("use_attention", PBool true)]))
      1%positive
      (list_to_map [("use_lstm", PBool true); ("use_attention", PBool true)])
      (Box [4] float32) (Some (Discrete 2)) None
      (PStr "tanh") (PList [PInt 256; PInt 256]) PNone (PInt 256)
      (PBool true) (PInt 256) (PBool false) _ _ _ _ _ _ _ _ _);
      vm_compute; reflexivity.
  - rewrite (Htok (Box [4] float32) 1%positive
      (store_with (list_to_map [("use_lstm", PBool true);
                                ("use_attention", PBool true)]))
      (list_to_map [("use_lstm", PBool true); ("use_attention", PBool true)]));
      vm_compute; reflexivity.
Defined.

(** ** The constructor *)

(** C7: when [Catalog(...)] returns, the instance, which did not exist
    before, has all of [observation_space], [action_space],
    [model_config_dict] (a dict of the store), [view_requirements],
    [encoder_config], [action_dist_cls_dict] and [latent_dim], and
    [latent_dim] is [encoder_config.output_dim].  When it raises, the
    caller gets no instance, and the instances that existed before are as
    they were. *)
Theorem C7_catalog_fully_initialised :
  ∀ D gfc observation_space action_space l vr σ,
    (∀ self σ',
       Catalog.new D gfc observation_space action_space l vr σ = (Ok self, σ') →
       objs σ !! self = None
       ∧ ∃ attrs stored encoder_config action_dist_cls_dict,
           objs σ' !! self = Some attrs
           ∧ attrs !! "observation_space" = Some (ASpace observation_space)
           ∧ attrs !! "action_space" = Some (ASpace action_space)
           ∧ attrs !! "model_config_dict" = Some (ADictRef stored)
           ∧ is_Some (dicts σ' !! stored)
           ∧ attrs !! "view_requirements" = Some (AOptRef vr)
           ∧ attrs !! "encoder_config" = Some (AConfig encoder_config)
           ∧ attrs !! "action_dist_cls_dict" = Some (ADistDict action_dist_cls_dict)
           ∧ attrs !! "latent_dim" = Some (AVal (output_dim encoder_config)))
    ∧
    (∀ e σ',
       Catalog.new D gfc observation_space action_space l vr σ = (Err e, σ') →
       ∀ o attrs, objs σ !! o = Some attrs → objs σ' !! o = Some attrs).
Proof.
  intros D gfc observation_space action_space l vr σ. split.
  - intros self σ' Hnew.
    apply Catalog_new_success in Hnew
      as (c & ec & ad & Hl & _ & _ & Hself & Hobjs & Hdicts).
    split.
    + rewrite Hself. apply not_elem_of_dom, is_fresh.
    + eexists _, _, ec, ad. rewrite Hobjs, Hdicts.
      split; [apply lookup_insert_eq|].
      unfold catalog_attrs.
      repeat split;
        try (repeat (rewrite lookup_insert_ne by discriminate);
             apply lookup_insert_eq).
      rewrite lookup_insert_ne by apply fresh_insert_ne.
      rewrite lookup_insert_eq. eauto.
  - intros e σ' Hnew o attrs Ho.
    replace σ' with
      (Catalog.new D gfc observation_space action_space l vr σ).2
      by (rewrite Hnew; reflexivity).
    rewrite Catalog_new_frame; [exact Ho|].
    apply not_eq_sym. eapply fresh_dict_ne, Ho.
Qed.

Lemma C7_catalog_fully_initialised_witness :
  objs (store_with ∅) !! 1%positive = None
  ∧ ∃ attrs stored encoder_config action_dist_cls_dict,
      objs (Catalog.new sample_defaults sample_filter_config
              (Box [8] float32) (Discrete 6) 1%positive None (store_with ∅)).2
        !! 1%positive = Some attrs
      ∧ attrs !! "observation_space" = Some (ASpace (Box [8] float32))
      ∧ attrs !! "action_space" = Some (ASpace (Discrete 6))
      ∧ attrs !! "model_config_dict" = Some (ADictRef stored)
      ∧ is_Some
          (dicts (Catalog.new sample_defaults sample_filter_config
                    (Box [8] float32) (Discrete 6) 1%positive None
                    (store_with ∅)).2 !! stored)
      ∧ attrs !! "view_requirements" = Some (AOptRef None)
      ∧ attrs !! "encoder_config" = Some (AConfig encoder_config)
      ∧ attrs !! "action_dist_cls_dict" = Some (ADistDict action_dist_cls_dict)
      ∧ attrs !! "latent_dim" = Some (AVal (output_dim encoder_config)).
Proof.
  apply (proj1 (C7_catalog_fully_initialised sample_defaults
    sample_filter_config (Box [8] float32) (Discrete 6) 1%positive None
    (store_with ∅)) 1%positive).
  vm_compute. reflexivity.
Defined.

(** ** Looking up the action distribution class *)

Lemma get_action_dist_cls_run self framework σ attrs d :
  objs σ !! self = Some attrs →
  attrs !! "action_dist_cls_dict" = Some (ADistDict d) →
  Catalog.get_action_dist_cls self framework σ =
    (Catalog.getitem d framework, σ).
Proof.
  intros Hs Hd. unfold Catalog.get_action_dist_cls.
  rewrite (bind_getattr _ _ _ _ _ Hs), Hd.
  unfold Catalog.getitem. destruct (d !! framework); reflexivity.
Qed.

(** C8: on a Catalog as its constructor leaves it,
    [get_action_dist_cls(framework)] is the lookup of [framework] in the
    stored [action_dist_cls_dict]: it returns the stored class for torch
    and for tf, raises [KeyError] for every other tag and raises nothing
    else; the store is the same after the call. *)
Theorem C8_get_action_dist_cls_lookup :
  ∀ D gfc observation_space action_space l vr σ self σ' framework,
    Catalog.new D gfc observation_space action_space l vr σ = (Ok self, σ') →
    (Catalog.get_action_dist_cls self framework σ').2 = σ'
    ∧ (∃ attrs d,
         objs σ' !! self = Some attrs
         ∧ attrs !! "action_dist_cls_dict" = Some (ADistDict d)
         ∧ (Catalog.get_action_dist_cls self framework σ').1 =
             match d !! framework with
             | Some cls => Ok cls
             | None => Err (KeyError framework)
             end)
    ∧ ((∃ cls, (Catalog.get_action_dist_cls self framework σ').1 = Ok cls) ↔
         framework = "torch" ∨ framework = "tf")
    ∧ (∀ e, (Catalog.get_action_dist_cls self framework σ').1 = Err e ↔
            e = KeyError framework ∧ framework ≠ "torch" ∧ framework ≠ "tf").
Proof.
  intros D gfc observation_space action_space l vr σ self σ' framework Hnew.
  apply Catalog_new_success in Hnew
    as (c & ec & ad & Hl & _ & Had & Hself & Hobjs & Hdicts).
  assert (Hs : objs σ' !! self =
    Some (catalog_attrs observation_space action_space
            (fresh (dom (dicts σ))) vr ec ad)).
  { rewrite Hobjs. apply lookup_insert_eq. }
  assert (Hd : catalog_attrs observation_space action_space
                 (fresh (dom (dicts σ))) vr ec ad
                 !! "action_dist_cls_dict" = Some (ADistDict ad)).
  { unfold catalog_attrs. rewrite lookup_insert_ne by discriminate.
    apply lookup_insert_eq. }
  rewrite (get_action_dist_cls_run _ _ _ _ _ Hs Hd). simpl.
  split; [reflexivity|].
  assert (Hdom : is_Some (ad !! framework) ↔ framework = "torch" ∨ framework = "tf").
  { rewrite <- elem_of_dom, (get_action_dist_cls_dict_dom _ _ _ Had).
    set_solver. }
  split.
  { exists (catalog_attrs observation_space action_space
              (fresh (dom (dicts σ))) vr ec ad), ad.
    split; [exact Hs|]. split; [exact Hd|]. reflexivity. }
  unfold Catalog.getitem.
  destruct (ad !! framework) as [cls|] eqn:Hf.
  - assert (Hin : framework = "torch" ∨ framework = "tf")
      by (apply Hdom; eauto).
    split.
    + split; [intros _; exact Hin | intros _; eauto].
    + intros e. split; [discriminate|]. intros (_ & Ht & Htf).
      destruct Hin; contradiction.
  - assert (Hout : ¬ (framework = "torch" ∨ framework = "tf")).
    { intros Hin. apply Hdom in Hin. destruct Hin; discriminate. }
    split.
    + split; [intros [cls [=]] | intros Hin; contradiction].
    + intros e. split.
      * intros [= <-]. split; [reflexivity|].
        split; intros ->; apply Hout; [left | right]; reflexivity.
      * intros (-> & _). reflexivity.
Qed.

Lemma C8_get_action_dist_cls_lookup_witness :
  (Catalog.get_action_dist_cls 1%positive "torch"
     (Catalog.new sample_defaults sample_filter_config
        (Box [8] float32) (Discrete 6) 1%positive None (store_with ∅)).2).2 =
    (Catalog.new sample_defaults sample_filter_config
       (Box [8] float32) (Discrete 6) 1%positive None (store_with ∅)).2
  ∧ (Catalog.get_action_dist_cls 1%positive "torch"
       (Catalog.new sample_defaults sample_filter_config
          (Box [8] float32) (Discrete 6) 1%positive None (store_with ∅)).2).1 =
      Ok TorchCategorical
  ∧ (Catalog.get_action_dist_cls 1%positive "jax"
       (Catalog.new sample_defaults sample_filter_config
          (Box [8] float32) (Discrete 6) 1%positive None (store_with ∅)).2).1 =
      Err (KeyError "jax").
Proof.
  assert (Hnew :
    Catalog.new sample_defaults sample_filter_config
      (Box [8] float32) (Discrete 6) 1%positive None (store_with ∅) =
    (Ok 1%positive,
     (Catalog.new sample_defaults sample_filter_config
        (Box [8] float32) (Discrete 6) 1%positive None (store_with ∅)).2))
    by (vm_compute; reflexivity).
  split; [|split].
  - exact (proj1 (C8_get_action_dist_cls_lookup _ _ _ _ _ _ _ _ _ "torch" Hnew)).
  - vm_compute. reflexivity.
  - apply (proj2 (proj2 (proj2
      (C8_get_action_dist_cls_lookup _ _ _ _ _ _ _ _ _ "jax" Hnew)))).
    split; [reflexivity|]. split; discriminate.
Defined.

(** ** The caller's dict *)

(** C9: the resolver, whatever it is given and whether it returns or
    raises, leaves the dict behind the reference it was passed as it was
    (no key added, none changed), and every other dict and every instance
    of the store as well; the one reference at which the store can differ
    is the new one of the dict the resolver merged for itself. *)
Theorem C9_caller_dict_unchanged :
  ∀ D gfc observation_space l act vr σ,
    dicts (Catalog.get_encoder_config D gfc observation_space l act vr σ).2 !! l =
      dicts σ !! l
    ∧ dicts σ !! fresh (dom (dicts σ)) = None
    ∧ (∀ l0,
         l0 ≠ fresh (dom (dicts σ)) →
         dicts (Catalog.get_encoder_config D gfc observation_space l act vr σ).2
           !! l0 = dicts σ !! l0)
    ∧ objs (Catalog.get_encoder_config D gfc observation_space l act vr σ).2 =
        objs σ.
Proof.
  intros D gfc observation_space l act vr σ.
  assert (Hfresh : dicts σ !! fresh (dom (dicts σ)) = None)
    by apply not_elem_of_dom, is_fresh.
  destruct (dicts σ !! l) as [c|] eqn:Hl.
  - rewrite (get_encoder_config_run _ _ _ _ _ _ _ c Hl). simpl.
    split; [|split; [exact Hfresh|split; [|reflexivity]]].
    + rewrite lookup_insert_ne; [exact Hl|]. eapply fresh_dict_ne, Hl.
    + intros l0 Hne. apply lookup_insert_ne. apply not_eq_sym, Hne.
  - rewrite get_encoder_config_invalid by exact Hl. simpl.
    split; [exact Hl|]. split; [exact Hfresh|]. split; [|reflexivity].
    intros l0 _. reflexivity.
Qed.

(** The caller's dict, with its one entry, after a run on the 3-D path
    that derives and writes [conv_filters]. *)
Lemma C9_caller_dict_unchanged_witness :
  dicts (Catalog.get_encoder_config sample_defaults sample_filter_config
           (Box [84; 84; 4] float32) 1%positive None None
           (store_with {[ "fcnet_activation" := PStr "relu" ]})).2
    !! 1%positive =
  dicts (store_with {[ "fcnet_activation" := PStr "relu" ]}) !! 1%positive.
Proof.
  apply (proj1 (proj2 (proj2 (C9_caller_dict_unchanged sample_defaults
    sample_filter_config (Box [84; 84; 4] float32) 1%positive None None
    (store_with {[ "fcnet_activation" := PStr "relu" ]}))))).
  vm_compute. discriminate.
Defined.

(** ** Merging the defaults twice *)

Lemma merge_defaults_idemp (D c : gmap string PyVal) : (c ∪ D) ∪ D = c ∪ D.
Proof.
  rewrite <- (assoc_L (∪)). rewrite (idemp_L (∪) D). reflexivity.
Qed.

(** C10: the resolver returns the same outcome, config or exception, for
    a dict [c] and for a dict holding [{**MODEL_DEFAULTS, **c}], in
    whatever stores the two live; and the encoder config a Catalog stores,
    resolved from the raw dict it was given, is what the resolver returns
    for the Catalog's stored, merged [model_config_dict]. *)
Theorem C10_merge_before_resolve_is_noop :
  ∀ D gfc observation_space act vr,
    (∀ σ1 l1 σ2 l2 c,
       dicts σ1 !! l1 = Some c →
       dicts σ2 !! l2 = Some (c ∪ D) →
       (Catalog.get_encoder_config D gfc observation_space l1 act vr σ1).1 =
         (Catalog.get_encoder_config D gfc observation_space l2 act vr σ2).1)
    ∧
    (∀ action_space l σ self σ',
       Catalog.new D gfc observation_space action_space l vr σ = (Ok self, σ') →
       ∃ attrs stored encoder_config,
         objs σ' !! self = Some attrs
         ∧ attrs !! "model_config_dict" = Some (ADictRef stored)
         ∧ attrs !! "encoder_config" = Some (AConfig encoder_config)
         ∧ (Catalog.get_encoder_config D gfc observation_space l
              (Some action_space) vr σ).1 = Ok encoder_config
         ∧ (Catalog.get_encoder_config D gfc observation_space stored
              (Some action_space) vr σ').1 = Ok encoder_config).
Proof.
  intros D gfc observation_space act vr. split.
  - intros σ1 l1 σ2 l2 c H1 H2.
    rewrite (get_encoder_config_run _ _ _ _ _ _ _ c H1).
    rewrite (get_encoder_config_run _ _ _ _ _ _ _ (c ∪ D) H2).
    simpl. rewrite merge_defaults_idemp. reflexivity.
  - intros action_space l σ self σ' Hnew.
    apply Catalog_new_success in Hnew
      as (c & ec & ad & Hl & Hec & _ & Hself & Hobjs & Hdicts).
    assert (Hstored : dicts σ' !! fresh (dom (dicts σ)) = Some (c ∪ D)).
    { rewrite Hdicts. rewrite lookup_insert_ne by apply fresh_insert_ne.
      apply lookup_insert_eq. }
    eexists _, _, ec. rewrite Hobjs.
    split; [apply lookup_insert_eq|].
    unfold catalog_attrs.
    split.
    { repeat (rewrite lookup_insert_ne by discriminate). apply lookup_insert_eq. }
    split.
    { repeat (rewrite lookup_insert_ne by discriminate). apply lookup_insert_eq. }
    split.
    + rewrite (get_encoder_config_run _ _ _ _ _ _ _ c Hl). exact Hec.
    + rewrite (get_encoder_config_run _ _ _ _ _ _ _ (c ∪ D) Hstored).
      simpl. rewrite merge_defaults_idemp. exact Hec.
Qed.

Lemma C10_merge_before_resolve_is_noop_witness :
  (Catalog.get_encoder_config sample_defaults sample_filter_config
     (Box [8] float32) 1%positive None None
     (store_with (list_to_map [("fcnet_hiddens", PList [PInt 64; PInt 32])]))).1 =
  (Catalog.get_encoder_config sample_defaults sample_filter_config
     (Box [8] float32) 1%positive None None
     (store_with (list_to_map [("fcnet_hiddens", PList [PInt 64; PInt 32])]
                  ∪ sample_defaults))).1.
Proof.
  apply (proj1 (C10_merge_before_resolve_is_noop sample_defaults
    sample_filter_config (Box [8] float32) None None)
    _ _ _ _ (list_to_map [("fcnet_hiddens", PList [PInt 64; PInt 32])]));
    vm_compute; reflexivity.
Defined.

(** * Further properties of the resolvers *)

(** ** What the encoder resolver reads *)

(** The outcome is the same for two merged dicts that agree on the six
    keys whose values are used, and on the truth value of the two flags. *)
Lemma resolve_merged_congr gfc obs m1 m2 act vr :
  m1 !! "fcnet_activation" = m2 !! "fcnet_activation" →
  m1 !! "fcnet_hiddens" = m2 !! "fcnet_hiddens" →
  m1 !! "encoder_latent_dim" = m2 !! "encoder_latent_dim" →
  m1 !! "lstm_cell_size" = m2 !! "lstm_cell_size" →
  m1 !! "_time_major" = m2 !! "_time_major" →
  m1 !! "conv_filters" = m2 !! "conv_filters" →
  truthy <$> (m1 !! "use_lstm") = truthy <$> (m2 !! "use_lstm") →
  truthy <$> (m1 !! "use_attention") = truthy <$> (m2 !! "use_attention") →
  (resolve_merged gfc obs m1 act vr).1 = (resolve_merged gfc obs m2 act vr).1.
Proof.
  intros Hact Hhid Hlat Hcell Htm Hconv Hlstm Hatt.
  unfold resolve_merged, try_with, Catalog.getitem.
  rewrite Hact, Hhid, Hlat, Hcell, Htm, Hconv.
  destruct (m2 !! "fcnet_activation") as [activation|]; [|reflexivity].
  destruct (m2 !! "fcnet_hiddens") as [hiddens|]; [|reflexivity].
  destruct (m2 !! "encoder_latent_dim") as [x|]; [|reflexivity].
  destruct (if truthy x then Ok x else subscript_last hiddens) as [dim|e];
    [|reflexivity].
  destruct (m1 !! "use_lstm") as [a|], (m2 !! "use_lstm") as [b|];
    simpl in Hlstm; try discriminate; [|reflexivity].
  injection Hlstm as ->.
  destruct (truthy b).
  { destruct (m2 !! "lstm_cell_size"); [|reflexivity].
    destruct (m2 !! "_time_major"); reflexivity. }
  destruct (m1 !! "use_attention") as [a'|], (m2 !! "use_attention") as [b'|];
    simpl in Hatt; try discriminate; [|reflexivity].
  injection Hatt as ->.
  destruct (truthy b'); [reflexivity|].
  destruct obs as [shape dtype| | | | | |]; try reflexivity.
  destruct (length shape =? 1)%nat.
  { destruct (if truthy x then Ok hiddens else slice_but_last hiddens);
      [|reflexivity].
    destruct shape; reflexivity. }
  destruct (length shape =? 3)%nat; [|reflexivity].
  simpl. destruct (truthy (default PNone (m2 !! "conv_filters"))); [reflexivity|].
  destruct (Catalog.call_get_filter_config gfc shape); reflexivity.
Qed.

(** X1: the outcome of the encoder resolver, config or exception, is the
    same for two dicts whose merges with the defaults agree on the eight
    keys of [read_keys]: every other entry of a configuration is ignored. *)
Theorem X1_outcome_depends_on_read_keys :
  ∀ D gfc observation_space act vr σ1 l1 c1 σ2 l2 c2,
    dicts σ1 !! l1 = Some c1 →
    dicts σ2 !! l2 = Some c2 →
    (∀ key, key ∈ read_keys → (c1 ∪ D) !! key = (c2 ∪ D) !! key) →
    (Catalog.get_encoder_config D gfc observation_space l1 act vr σ1).1 =
      (Catalog.get_encoder_config D gfc observation_space l2 act vr σ2).1.
Proof.
  intros D gfc observation_space act vr σ1 l1 c1 σ2 l2 c2 H1 H2 Hagree.
  rewrite (get_encoder_config_run _ _ _ _ _ _ _ c1 H1).
  rewrite (get_encoder_config_run _ _ _ _ _ _ _ c2 H2).
  simpl. unfold read_keys in Hagree.
  apply resolve_merged_congr; rewrite Hagree by set_solver; reflexivity.
Qed.

Lemma X1_outcome_depends_on_read_keys_witness :
  (Catalog.get_encoder_config sample_defaults sample_filter_config
     (Box [8] float32) 1%positive None None
     (store_with {[ "fcnet_hiddens" := PList [PInt 64; PInt 32] ]})).1 =
  (Catalog.get_encoder_config sample_defaults sample_filter_config
     (Box [8] float32) 1%positive None None
     (store_with {[ "fcnet_hiddens" := PList [PInt 64; PInt 32];
                    "vf_share_layers" := PBool true;
                    "post_fcnet_hiddens" := PList [PInt 7] ]})).1.
Proof.
  apply (X1_outcome_depends_on_read_keys sample_defaults sample_filter_config
    (Box [8] float32) None None _ _
    {[ "fcnet_hiddens" := PList [PInt 64; PInt 32] ]} _ _
    {[ "fcnet_hiddens" := PList [PInt 64; PInt 32];
       "vf_share_layers" := PBool true;
       "post_fcnet_hiddens" := PList [PInt 7] ]});
    [vm_compute; reflexivity | vm_compute; reflexivity |].
  intros key Hkey. unfold read_keys in Hkey.
  repeat (apply elem_of_cons in Hkey as [-> | Hkey];
          [vm_compute; reflexivity|]).
  apply elem_of_nil in Hkey. contradiction.
Defined.

(** X2: the resolver needs [fcnet_activation], [fcnet_hiddens],
    [encoder_latent_dim] and [use_lstm] in the merged dict whatever the
    observation space: it returns a config only when all four are there,
    and a merged dict without [fcnet_activation] gets
    [KeyError("fcnet_activation")] before anything else is looked at. *)
Theorem X2_required_keys :
  ∀ D gfc observation_space act vr σ l c,
    dicts σ !! l = Some c →
    ((c ∪ D) !! "fcnet_activation" = None →
       (Catalog.get_encoder_config D gfc observation_space l act vr σ).1 =
         Err (KeyError "fcnet_activation"))
    ∧
    (∀ cfg,
       (Catalog.get_encoder_config D gfc observation_space l act vr σ).1 = Ok cfg →
       is_Some ((c ∪ D) !! "fcnet_activation")
       ∧ is_Some ((c ∪ D) !! "fcnet_hiddens")
       ∧ is_Some ((c ∪ D) !! "encoder_latent_dim")
       ∧ is_Some ((c ∪ D) !! "use_lstm")).
Proof.
  intros D gfc observation_space act vr σ l c Hl.
  run_resolver Hl. split.
  - intros ->. reflexivity.
  - intros cfg.
    destruct ((c ∪ D) !! "fcnet_activation"); [|discriminate].
    destruct ((c ∪ D) !! "fcnet_hiddens") as [h|]; [|discriminate].
    destruct ((c ∪ D) !! "encoder_latent_dim") as [x|]; [|discriminate].
    destruct (if truthy x then Ok x else subscript_last h); [|discriminate].
    destruct ((c ∪ D) !! "use_lstm"); [|discriminate].
    intros _. repeat split; eauto.
Qed.

(** Without a table of defaults an empty configuration has no activation. *)
Lemma X2_required_keys_witness :
  (Catalog.get_encoder_config ∅ sample_filter_config
     (Box [8] float32) 1%positive None None (store_with ∅)).1 =
    Err (KeyError "fcnet_activation").
Proof.
  apply (proj1 (X2_required_keys ∅ sample_filter_config (Box [8] float32)
    None None (store_with ∅) 1%positive ∅ eq_refl)).
  vm_compute. reflexivity.
Defined.

(** X3: the default latent dimension is resolved before any branch is
    chosen.  With a false [encoder_latent_dim], an empty [fcnet_hiddens]
    makes the resolver raise [IndexError], and a [fcnet_hiddens] that is
    [None], a bool or an int makes it raise [TypeError], for every
    observation space and whatever [use_lstm] and [use_attention] are. *)
Theorem X3_latent_dim_resolved_first :
  ∀ D gfc observation_space act vr σ l c activation hiddens latent,
    dicts σ !! l = Some c →
    (c ∪ D) !! "fcnet_activation" = Some activation →
    (c ∪ D) !! "fcnet_hiddens" = Some hiddens →
    (c ∪ D) !! "encoder_latent_dim" = Some latent →
    truthy latent = false →
    (hiddens = PList [] →
       (Catalog.get_encoder_config D gfc observation_space l act vr σ).1 =
         Err IndexError)
    ∧
    ((hiddens = PNone ∨ (∃ b, hiddens = PBool b) ∨ (∃ n, hiddens = PInt n)) →
       (Catalog.get_encoder_config D gfc observation_space l act vr σ).1 =
         Err TypeError).
Proof.
  intros D gfc observation_space act vr σ l c activation hiddens latent
    Hl Hact Hhid Hlat Tlat.
  run_resolver Hl. rewrite Hact, Hhid, Hlat, Tlat. split.
  - intros ->. reflexivity.
  - intros [-> | [[b ->] | [n ->]]]; reflexivity.
Qed.

Lemma X3_latent_dim_resolved_first_witness :
  (Catalog.get_encoder_config sample_defaults sample_filter_config
     (Box [84; 84; 4] float32) 1%positive None None
     (store_with {[ "fcnet_hiddens" := PList [] ]})).1 = Err IndexError
  ∧
  (Catalog.get_encoder_config sample_defaults sample_filter_config
     (Discrete 3) 1%positive None None
     (store_with {[ "fcnet_hiddens" := PNone; "use_lstm" := PBool true ]})).1 =
    Err TypeError.
Proof.
  split.
  - refine (proj1 (X3_latent_dim_resolved_first sample_defaults
      sample_filter_config (Box [84; 84; 4] float32) None None
      (store_with {[ "fcnet_hiddens" := PList [] ]}) 1%positive
      {[ "fcnet_hiddens" := PList [] ]} (PStr "tanh") (PList []) PNone
      _ _ _ _ _) _); vm_compute; reflexivity.
  - refine (proj2 (X3_latent_dim_resolved_first sample_defaults
      sample_filter_config (Discrete 3) None None
      (store_with {[ "fcnet_hiddens" := PNone; "use_lstm" := PBool true ]})
      1%positive {[ "fcnet_hiddens" := PNone; "use_lstm" := PBool true ]}
      (PStr "tanh") PNone PNone _ _ _ _ _) _);
      first [ left; reflexivity | vm_compute; reflexivity ].
Defined.

(** ** Filters on the 3-D path *)

(** X4: filters that the configuration supplies are used as they are.
    For a 3-D Box, with the flags off and a true [conv_filters] in the
    merged dict, the CNN config carries that value, whatever
    [get_filter_config] would say about the shape (it is not asked), and
    the resolver's own dict ends as the plain merge. *)
Theorem X4_supplied_filters_verbatim :
  ∀ D gfc σ l c shape dtype act vr activation hiddens latent dim
    v_lstm v_att given,
    dicts σ !! l = Some c →
    length shape = 3%nat →
    (c ∪ D) !! "fcnet_activation" = Some activation →
    (c ∪ D) !! "fcnet_hiddens" = Some hiddens →
    (c ∪ D) !! "encoder_latent_dim" = Some latent →
    (if truthy latent then Ok latent else subscript_last hiddens) = Ok dim →
    (c ∪ D) !! "use_lstm" = Some v_lstm → truthy v_lstm = false →
    (c ∪ D) !! "use_attention" = Some v_att → truthy v_att = false →
    (c ∪ D) !! "conv_filters" = Some given → truthy given = true →
    (Catalog.get_encoder_config D gfc (Box shape dtype) l act vr σ).1 =
      Ok (CNN {|
        CNNEncoderConfig.input_dims := shape;
        CNNEncoderConfig.filter_specifiers := given;
        CNNEncoderConfig.filter_layer_activation := activation;
        CNNEncoderConfig.output_activation := activation;
        CNNEncoderConfig.output_dim := dim |})
    ∧ dicts (Catalog.get_encoder_config D gfc (Box shape dtype) l act vr σ).2
        !! fresh (dom (dicts σ)) = Some (c ∪ D).
Proof.
  intros D gfc σ l c shape dtype act vr activation hiddens latent dim
    v_lstm v_att given Hl Hlen Hact Hhid Hlat Hdim Hlstm Tlstm Hatt Tatt
    Hconv Tconv.
  rewrite (get_encoder_config_run _ _ _ _ _ _ _ c Hl). simpl.
  unfold resolve_merged, try_with, Catalog.getitem.
  rewrite Hact, Hhid, Hlat, Hdim, Hlstm, Tlstm, Hatt, Tatt, Hlen, Hconv.
  simpl. rewrite Tconv. simpl. split; [reflexivity|apply lookup_insert_eq].
Qed.

(** A 10x10 input, for which the sample heuristic has no filters. *)
Lemma X4_supplied_filters_verbatim_witness :
  (Catalog.get_encoder_config sample_defaults sample_filter_config
     (Box [10; 10; 3] float32) 1%positive None None
     (store_with {[ "conv_filters" := PList [filter_spec 16 5 2] ]})).1 =
    Ok (CNN {|
      CNNEncoderConfig.input_dims := [10; 10; 3];
      CNNEncoderConfig.filter_specifiers := PList [filter_spec 16 5 2];
      CNNEncoderConfig.filter_layer_activation := PStr "tanh";
      CNNEncoderConfig.output_activation := PStr "tanh";
      CNNEncoderConfig.output_dim := PInt 256 |}).
Proof.
  refine (proj1 (X4_supplied_filters_verbatim sample_defaults
    sample_filter_config
    (store_with {[ "conv_filters" := PList [filter_spec 16 5 2] ]}) 1%positive
    {[ "conv_filters" := PList [filter_spec 16 5 2] ]} [10; 10; 3] float32
    None None (PStr "tanh") (PList [PInt 256; PInt 256]) PNone (PInt 256)
    (PBool false) (PBool false) (PList [filter_spec 16 5 2])
    _ _ _ _ _ _ _ _ _ _ _ _)); vm_compute; reflexivity.
Defined.

(** X5: when no filters are supplied and [get_filter_config] raises for
    the shape, the resolver passes the exception on: no CNN config is
    returned and nothing is written to the resolver's dict. *)
Theorem X5_filter_heuristic_failure_propagates :
  ∀ D gfc σ l c shape dtype act vr activation hiddens latent dim
    v_lstm v_att,
    dicts σ !! l = Some c →
    length shape = 3%nat →
    (c ∪ D) !! "fcnet_activation" = Some activation →
    (c ∪ D) !! "fcnet_hiddens" = Some hiddens →
    (c ∪ D) !! "encoder_latent_dim" = Some latent →
    (if truthy latent then Ok latent else subscript_last hiddens) = Ok dim →
    (c ∪ D) !! "use_lstm" = Some v_lstm → truthy v_lstm = false →
    (c ∪ D) !! "use_attention" = Some v_att → truthy v_att = false →
    truthy (default PNone ((c ∪ D) !! "conv_filters")) = false →
    gfc shape = None →
    (Catalog.get_encoder_config D gfc (Box shape dtype) l act vr σ).1 =
      Err FilterConfigError
    ∧ dicts (Catalog.get_encoder_config D gfc (Box shape dtype) l act vr σ).2
        !! fresh (dom (dicts σ)) = Some (c ∪ D).
Proof.
  intros D gfc σ l c shape dtype act vr activation hiddens latent dim
    v_lstm v_att Hl Hlen Hact Hhid Hlat Hdim Hlstm Tlstm Hatt Tatt Hconv Hgfc.
  rewrite (get_encoder_config_run _ _ _ _ _ _ _ c Hl). simpl.
  unfold resolve_merged, try_with, Catalog.getitem.
  rewrite Hact, Hhid, Hlat, Hdim, Hlstm, Tlstm, Hatt, Tatt, Hlen.
  simpl. rewrite Hconv. unfold Catalog.call_get_filter_config. rewrite Hgfc.
  simpl. split; [reflexivity|apply lookup_insert_eq].
Qed.

Lemma X5_filter_heuristic_failure_propagates_witness :
  (Catalog.get_encoder_config sample_defaults sample_filter_config
     (Box [10; 10; 3] float32) 1%positive None None (store_with ∅)).1 =
    Err FilterConfigError.
Proof.
  refine (proj1 (X5_filter_heuristic_failure_propagates sample_defaults
    sample_filter_config (store_with ∅) 1%positive ∅ [10; 10; 3] float32
    None None (PStr "tanh") (PList [PInt 256; PInt 256]) PNone (PInt 256)
    (PBool false) (PBool false) _ _ _ _ _ _ _ _ _ _ _ _));
    vm_compute; reflexivity.
Defined.

(** ** Which config comes back *)

(** X6: the variant of a returned config tells the branch taken.  An MLP
    config comes only from a 1-D Box with [use_lstm] false, and takes the
    box's width as input width; a CNN config only from a 3-D Box with
    [use_lstm] false, and takes the box's shape; an LSTM config only from
    a true [use_lstm], and keeps the observation space it was given. *)
Theorem X6_variant_identifies_branch :
  ∀ D gfc observation_space act vr σ l c,
    dicts σ !! l = Some c →
    (∀ cfg,
       (Catalog.get_encoder_config D gfc observation_space l act vr σ).1 =
         Ok (MLP cfg) →
       (∃ dtype, observation_space = Box [MLPEncoderConfig.input_dim cfg] dtype)
       ∧ truthy <$> ((c ∪ D) !! "use_lstm") = Some false)
    ∧
    (∀ cfg,
       (Catalog.get_encoder_config D gfc observation_space l act vr σ).1 =
         Ok (CNN cfg) →
       (∃ dtype,
          observation_space = Box (CNNEncoderConfig.input_dims cfg) dtype
          ∧ length (CNNEncoderConfig.input_dims cfg) = 3%nat)
       ∧ truthy <$> ((c ∪ D) !! "use_lstm") = Some false)
    ∧
    (∀ cfg,
       (Catalog.get_encoder_config D gfc observation_space l act vr σ).1 =
         Ok (LSTM cfg) →
       LSTMEncoderConfig.observation_space cfg = observation_space
       ∧ truthy <$> ((c ∪ D) !! "use_lstm") = Some true).
Proof.
  intros D gfc observation_space act vr σ l c Hl.
  run_resolver Hl.
  destruct ((c ∪ D) !! "fcnet_activation") as [activation|];
    [|repeat split; discriminate].
  destruct ((c ∪ D) !! "fcnet_hiddens") as [h|]; [|repeat split; discriminate].
  destruct ((c ∪ D) !! "encoder_latent_dim") as [x|];
    [|repeat split; discriminate].
  destruct (if truthy x then Ok x else subscript_last h) as [dim|e];
    [|repeat split; discriminate].
  destruct ((c ∪ D) !! "use_lstm") as [v|]; [|repeat split; discriminate].
  simpl fmap. destruct (truthy v).
  { destruct ((c ∪ D) !! "lstm_cell_size"); [|repeat split; discriminate].
    destruct ((c ∪ D) !! "_time_major"); [|repeat split; discriminate].
    split; [|split]; intros cfg Hcfg; try discriminate.
    injection Hcfg as <-. split; reflexivity. }
  destruct ((c ∪ D) !! "use_attention") as [a|]; [|repeat split; discriminate].
  destruct (truthy a); [repeat split; discriminate|].
  destruct observation_space as [shape dtype| | | | | |];
    try (repeat split; discriminate).
  destruct (length shape =? 1)%nat eqn:E1.
  { destruct (if truthy x then Ok h else slice_but_last h);
      [|repeat split; discriminate].
    destruct shape as [|w [|]]; try discriminate E1.
    split; [|split]; intros cfg Hcfg; try discriminate.
    injection Hcfg as <-. split; [exists dtype|]; reflexivity. }
  destruct (length shape =? 3)%nat eqn:E3; [|repeat split; discriminate].
  apply Nat.eqb_eq in E3. simpl.
  destruct (truthy (default PNone ((c ∪ D) !! "conv_filters"))).
  - split; [|split]; intros cfg Hcfg; try discriminate.
    injection Hcfg as <-. split; [exists dtype; split|]; [reflexivity|exact E3|reflexivity].
  - destruct (Catalog.call_get_filter_config gfc shape);
      [|repeat split; discriminate].
    split; [|split]; intros cfg Hcfg; try discriminate.
    injection Hcfg as <-. split; [exists dtype; split|]; [reflexivity|exact E3|reflexivity].
Qed.

Lemma X6_variant_identifies_branch_witness :
  (∃ dtype, Box [8] float32 = Box [8] dtype)
  ∧ truthy <$> ((({[ "fcnet_hiddens" := PList [PInt 64; PInt 32] ]}
                    : gmap string PyVal) ∪ sample_defaults) !! "use_lstm") =
      Some false.
Proof.
  refine (proj1 (X6_variant_identifies_branch sample_defaults
    sample_filter_config (Box [8] float32) None None
    (store_with {[ "fcnet_hiddens" := PList [PInt 64; PInt 32] ]}) 1%positive
    {[ "fcnet_hiddens" := PList [PInt 64; PInt 32] ]} _)
    {| MLPEncoderConfig.input_dim := 8;
       MLPEncoderConfig.hidden_layer_dims := PList [PInt 64];
       MLPEncoderConfig.hidden_layer_activation := PStr "tanh";
       MLPEncoderConfig.output_dim := PInt 32;
       MLPEncoderConfig.output_activation := PStr "tanh" |} _);
    vm_compute; reflexivity.
Defined.

(** X7: the action space and the view requirements only ever reach an
    LSTM config.  With [use_lstm] false in the merged dict the outcome is
    the same whatever is passed for them. *)
Theorem X7_action_space_only_for_lstm :
  ∀ D gfc observation_space σ l c v_lstm act1 vr1 act2 vr2,
    dicts σ !! l = Some c →
    (c ∪ D) !! "use_lstm" = Some v_lstm → truthy v_lstm = false →
    (Catalog.get_encoder_config D gfc observation_space l act1 vr1 σ).1 =
      (Catalog.get_encoder_config D gfc observation_space l act2 vr2 σ).1.
Proof.
  intros D gfc observation_space σ l c v_lstm act1 vr1 act2 vr2 Hl Hlstm Tlstm.
  rewrite !(get_encoder_config_run _ _ _ _ _ _ _ c Hl). simpl.
  unfold resolve_merged, try_with, Catalog.getitem.
  rewrite Hlstm, Tlstm. reflexivity.
Qed.

Lemma X7_action_space_only_for_lstm_witness :
  (Catalog.get_encoder_config sample_defaults sample_filter_config
     (Box [8] float32) 1%positive (Some (Discrete 2)) (Some 5%positive)
     (store_with ∅)).1 =
  (Catalog.get_encoder_config sample_defaults sample_filter_config
     (Box [8] float32) 1%positive None None (store_with ∅)).1.
Proof.
  apply (X7_action_space_only_for_lstm sample_defaults sample_filter_config
    (Box [8] float32) (store_with ∅) 1%positive ∅ (PBool false));
    vm_compute; reflexivity.
Defined.

(** X8: under the legacy rule nothing of [fcnet_hiddens] is lost.  When
    [encoder_latent_dim] is false and an MLP config is returned, its
    hidden widths followed by its output width are [fcnet_hiddens]. *)
Theorem X8_legacy_split_reassembles :
  ∀ D gfc observation_space act vr σ l c hiddens latent cfg,
    dicts σ !! l = Some c →
    (c ∪ D) !! "fcnet_hiddens" = Some (PList hiddens) →
    (c ∪ D) !! "encoder_latent_dim" = Some latent →
    truthy latent = false →
    (Catalog.get_encoder_config D gfc observation_space l act vr σ).1 =
      Ok (MLP cfg) →
    ∃ hidden_layer_dims,
      MLPEncoderConfig.hidden_layer_dims cfg = PList hidden_layer_dims
      ∧ (hidden_layer_dims ++ [MLPEncoderConfig.output_dim cfg])%list = hiddens.
Proof.
  intros D gfc observation_space act vr σ l c hiddens latent cfg
    Hl Hhid Hlat Tlat.
  run_resolver Hl. rewrite Hhid, Hlat, Tlat.
  destruct ((c ∪ D) !! "fcnet_activation") as [activation|]; [|discriminate].
  destruct hiddens as [|h hs]; [discriminate|]. cbv iota beta.
  simpl subscript_last. cbv iota beta.
  destruct ((c ∪ D) !! "use_lstm") as [v|]; [|discriminate].
  destruct (truthy v).
  { destruct ((c ∪ D) !! "lstm_cell_size"); [|discriminate].
    destruct ((c ∪ D) !! "_time_major"); discriminate. }
  destruct ((c ∪ D) !! "use_attention") as [a|]; [|discriminate].
  destruct (truthy a); [discriminate|].
  destruct observation_space as [shape dtype| | | | | |]; try discriminate.
  destruct (length shape =? 1)%nat.
  - simpl slice_but_last. cbv iota beta.
    destruct shape; [discriminate|]. intros [= <-]. simpl.
    eexists. split; [reflexivity|].
    symmetry. apply (app_removelast_last (l:=h :: hs)). discriminate.
  - destruct (length shape =? 3)%nat; [|discriminate]. simpl.
    destruct (truthy (default PNone ((c ∪ D) !! "conv_filters")));
      [discriminate|].
    destruct (Catalog.call_get_filter_config gfc shape); discriminate.
Qed.

Lemma X8_legacy_split_reassembles_witness :
  ∃ hidden_layer_dims,
    PList [PInt 128; PInt 64] = PList hidden_layer_dims
    ∧ (hidden_layer_dims ++ [PInt 32])%list = [PInt 128; PInt 64; PInt 32].
Proof.
  refine (X8_legacy_split_reassembles sample_defaults sample_filter_config
    (Box [8] float32) None None
    (store_with {[ "fcnet_hiddens" := PList [PInt 128; PInt 64; PInt 32] ]})
    1%positive {[ "fcnet_hiddens" := PList [PInt 128; PInt 64; PInt 32] ]}
    [PInt 128; PInt 64; PInt 32] PNone
    {| MLPEncoderConfig.input_dim := 8;
       MLPEncoderConfig.hidden_layer_dims := PList [PInt 128; PInt 64];
       MLPEncoderConfig.hidden_layer_activation := PStr "tanh";
       MLPEncoderConfig.output_dim := PInt 32;
       MLPEncoderConfig.output_activation := PStr "tanh" |} _ _ _ _ _);
    vm_compute; reflexivity.
Defined.

(** ** The tokenizer resolver *)

Lemma forced_off_merged_other D c key :
  key ≠ "use_lstm" → key ≠ "use_attention" →
  (forced_off c ∪ D) !! key = (c ∪ D) !! key.
Proof.
  intros H1 H2. rewrite !lookup_union. unfold forced_off.
  rewrite !lookup_insert_ne by (apply not_eq_sym; assumption). reflexivity.
Qed.

Lemma get_encoder_config_objs D gfc obs l act vr σ :
  objs (Catalog.get_encoder_config D gfc obs l act vr σ).2 = objs σ.
Proof.
  destruct (dicts σ !! l) as [c|] eqn:Hl.
  - rewrite (get_encoder_config_run _ _ _ _ _ _ _ c Hl). reflexivity.
  - rewrite get_encoder_config_invalid by exact Hl. reflexivity.
Qed.

(** X9: a tokenizer call does not turn the flags off in the dict it is
    given: that dict, like every dict and instance of the store, is as it
    was afterwards; the overrides live in a dict of the call's own. *)
Theorem X9_tokenizer_leaves_config_alone :
  ∀ D gfc space l σ,
    dicts (Catalog.get_tokenizer_config D gfc space l σ).2 !! l = dicts σ !! l
    ∧ (∀ l0 d0,
         dicts σ !! l0 = Some d0 →
         dicts (Catalog.get_tokenizer_config D gfc space l σ).2 !! l0 = Some d0)
    ∧ objs (Catalog.get_tokenizer_config D gfc space l σ).2 = objs σ.
Proof.
  intros D gfc space l σ.
  destruct (dicts σ !! l) as [c|] eqn:Hl.
  - rewrite (get_tokenizer_config_run _ _ _ _ _ c Hl).
    assert (Hframe : ∀ l0 d0,
      dicts σ !! l0 = Some d0 →
      dicts (Catalog.get_encoder_config D gfc space (fresh (dom (dicts σ)))
               None None
               (mkState (<[fresh (dom (dicts σ)) := forced_off c]> (dicts σ))
                        (objs σ))).2 !! l0 = Some d0).
    { intros l0 d0 H0. apply get_encoder_config_frame. simpl.
      rewrite lookup_insert_ne; [exact H0|]. eapply fresh_dict_ne, H0. }
    split; [apply Hframe, Hl|]. split; [exact Hframe|].
    rewrite get_encoder_config_objs. reflexivity.
  - rewrite get_tokenizer_config_invalid by exact Hl. simpl.
    split; [exact Hl|]. split; [tauto|reflexivity].
Qed.

Lemma X9_tokenizer_leaves_config_alone_witness :
  dicts (Catalog.get_tokenizer_config sample_defaults sample_filter_config
           (Box [4] float32) 1%positive
           (store_with {[ "use_lstm" := PBool true ]})).2 !! 1%positive =
    Some {[ "use_lstm" := PBool true ]}.
Proof.
  apply (proj1 (proj2 (X9_tokenizer_leaves_config_alone sample_defaults
    sample_filter_config (Box [4] float32) 1%positive
    (store_with {[ "use_lstm" := PBool true ]})))).
  vm_compute. reflexivity.
Defined.

(** X10: the flags of the configuration do not reach the tokenizer.  Two
    configurations whose merges agree on the other six keys read get the
    same outcome from [get_tokenizer_config]; and for a configuration
    whose flags are already false, that outcome is the one of
    [get_encoder_config] called with the space and the configuration
    alone. *)
Theorem X10_tokenizer_ignores_flags :
  ∀ D gfc space,
    (∀ σ1 l1 c1 σ2 l2 c2,
       dicts σ1 !! l1 = Some c1 →
       dicts σ2 !! l2 = Some c2 →
       (∀ key, key ∈ read_keys →
               key ≠ "use_lstm" → key ≠ "use_attention" →
               (c1 ∪ D) !! key = (c2 ∪ D) !! key) →
       (Catalog.get_tokenizer_config D gfc space l1 σ1).1 =
         (Catalog.get_tokenizer_config D gfc space l2 σ2).1)
    ∧
    (∀ σ l c v_lstm v_att,
       dicts σ !! l = Some c →
       (c ∪ D) !! "use_lstm" = Some v_lstm → truthy v_lstm = false →
       (c ∪ D) !! "use_attention" = Some v_att → truthy v_att = false →
       (Catalog.get_tokenizer_config D gfc space l σ).1 =
         (Catalog.get_encoder_config D gfc space l None None σ).1).
Proof.
  intros D gfc space. split.
  - intros σ1 l1 c1 σ2 l2 c2 H1 H2 Hagree.
    rewrite !get_tokenizer_config_result, H1, H2.
    unfold read_keys in Hagree.
    apply resolve_merged_congr;
      rewrite ?forced_off_merged_lstm, ?forced_off_merged_attention;
      try reflexivity;
      rewrite !forced_off_merged_other by discriminate;
      apply Hagree; first [ discriminate | set_solver ].
  - intros σ l c v_lstm v_att Hl Hlstm Tlstm Hatt Tatt.
    rewrite get_tokenizer_config_result, Hl.
    rewrite (get_encoder_config_run _ _ _ _ _ _ _ c Hl). simpl.
    apply resolve_merged_congr;
      rewrite ?forced_off_merged_lstm, ?forced_off_merged_attention,
        ?Hlstm, ?Hatt; simpl; rewrite ?Tlstm, ?Tatt;
      try reflexivity;
      apply forced_off_merged_other; discriminate.
Qed.

Lemma X10_tokenizer_ignores_flags_witness :
  (Catalog.get_tokenizer_config sample_defaults sample_filter_config
     (Box [4] float32) 1%positive
     (store_with {[ "use_lstm" := PBool true; "use_attention" := PBool true ]})).1 =
  (Catalog.get_tokenizer_config sample_defaults sample_filter_config
     (Box [4] float32) 1%positive (store_with ∅)).1
  ∧
  (Catalog.get_tokenizer_config sample_defaults sample_filter_config
     (Box [4] float32) 1%positive (store_with ∅)).1 =
  (Catalog.get_encoder_config sample_defaults sample_filter_config
     (Box [4] float32) 1%positive None None (store_with ∅)).1.
Proof.
  destruct (X10_tokenizer_ignores_flags sample_defaults sample_filter_config
    (Box [4] float32)) as [Hsame Hoff].
  split.
  - apply (Hsame _ _ {[ "use_lstm" := PBool true; "use_attention" := PBool true ]}
             _ _ ∅); [vm_compute; reflexivity | vm_compute; reflexivity |].
    intros key Hkey Hl Ha. unfold read_keys in Hkey.
    repeat (apply elem_of_cons in Hkey as [-> | Hkey];
            [first [ contradiction | vm_compute; reflexivity ]|]).
    apply elem_of_nil in Hkey. contradiction.
  - apply (Hoff _ _ ∅ (PBool false) (PBool false));
      vm_compute; reflexivity.
Defined.

(** ** The action resolver on boxes *)

Lemma distribution_dicts_gaussian :
  Catalog.getitem Catalog.distribution_dicts "gaussian" =
    Ok {[ "torch" := TorchDiagGaussian; "tf" := TfDiagGaussian ]}.
Proof. vm_compute. reflexivity. Qed.

Lemma distribution_dicts_deterministic :
  Catalog.getitem Catalog.distribution_dicts "deterministic" =
    Ok {[ "torch" := TorchDeterministic; "tf" := TfDeterministic ]}.
Proof. vm_compute. reflexivity. Qed.

Lemma distribution_dicts_categorical :
  Catalog.getitem Catalog.distribution_dicts "categorical" =
    Ok {[ "torch" := TorchCategorical; "tf" := TfCategorical ]}.
Proof. vm_compute. reflexivity. Qed.

(** X11: for a Box that is not integer-typed and has at most one
    dimension, a scalar box of shape [()] included, only the truth of
    [deterministic] matters: [True] gives the deterministic family, and
    [False], [None] or leaving it out the diagonal-Gaussian one; neither
    the width nor the dtype changes the result. *)
Theorem X11_box_family_by_flag_only :
  ∀ shape dtype deterministic,
    char_in dtype np_typecodes_AllInteger = false →
    (length shape ≤ 1)%nat →
    Catalog.get_action_dist_cls_dict (Box shape dtype) deterministic =
      Ok (if default false deterministic
          then {[ "torch" := TorchDeterministic; "tf" := TfDeterministic ]}
          else {[ "torch" := TorchDiagGaussian; "tf" := TfDiagGaussian ]}).
Proof.
  intros shape dtype deterministic Hfloat Hdims.
  unfold Catalog.get_action_dist_cls_dict. rewrite Hfloat.
  replace (1 <? length shape)%nat with false
    by (symmetry; apply Nat.ltb_ge; exact Hdims).
  destruct (default false deterministic).
  - apply distribution_dicts_deterministic.
  - apply distribution_dicts_gaussian.
Qed.

Lemma X11_box_family_by_flag_only_witness :
  Catalog.get_action_dist_cls_dict (Box [] float32) None =
    Ok {[ "torch" := TorchDiagGaussian; "tf" := TfDiagGaussian ]}.
Proof.
  apply (X11_box_family_by_flag_only [] float32 None eq_refl).
  vm_compute. lia.
Defined.

(** ** Constructing a Catalog *)

(** X12: construction is the encoder resolver, then the action resolver.
    It returns exactly when both succeed on the arguments given; when the
    encoder resolver raises, that exception is the one the caller sees,
    even if the action space is unsupported as well. *)
Theorem X12_construction_outcome :
  ∀ D gfc observation_space action_space l vr σ c,
    dicts σ !! l = Some c →
    (Catalog.new D gfc observation_space action_space l vr σ).1 =
      match (Catalog.get_encoder_config D gfc observation_space l
               (Some action_space) vr σ).1 with
      | Err e => Err e
      | Ok _ =>
          match Catalog.get_action_dist_cls_dict action_space (Some false) with
          | Err e => Err e
          | Ok _ => Ok (fresh (dom (objs σ)))
          end
      end.
Proof.
  intros D gfc observation_space action_space l vr σ c Hl.
  rewrite (Catalog_new_run _ _ _ _ _ _ _ c Hl). cbv zeta.
  rewrite (get_encoder_config_run _ _ _ _ _ _ _ c Hl). simpl.
  destruct ((resolve_merged gfc observation_space (c ∪ D)
               (Some action_space) vr).1); [|reflexivity].
  destruct (Catalog.get_action_dist_cls_dict action_space (Some false));
    reflexivity.
Qed.

(** A nested observation space together with a Tuple action space: the
    exception is the encoder resolver's. *)
Lemma X12_construction_outcome_witness :
  (Catalog.new sample_defaults sample_filter_config
     (Dict [("image", Box [84; 84; 4] float32)]) (Tuple [Discrete 2; Discrete 3])
     1%positive None (store_with ∅)).1 =
    Err (NotImplementedError site_complex_observation).
Proof.
  rewrite (X12_construction_outcome sample_defaults sample_filter_config
    (Dict [("image", Box [84; 84; 4] float32)]) (Tuple [Discrete 2; Discrete 3])
    1%positive None (store_with ∅) ∅ eq_refl).
  vm_compute. reflexivity.
Defined.

Lemma family_lookup (a b : DistCls) framework cls :
  ({[ "torch" := a; "tf" := b ]} : gmap string DistCls) !! framework = Some cls →
  cls = a ∨ cls = b.
Proof.
  intros H. apply lookup_insert_Some in H as [[_ <-] | [_ H]]; [left; reflexivity|].
  apply lookup_singleton_Some in H as [_ <-]. right; reflexivity.
Qed.

(** X13: a Catalog stores a stochastic family.  Its constructor calls the
    action resolver without [deterministic], so for a Box action space
    the stored classes are the diagonal-Gaussian ones, for a Discrete one
    the categorical ones, and [get_action_dist_cls] never returns a
    deterministic class. *)
Theorem X13_catalog_stores_stochastic_family :
  ∀ D gfc observation_space action_space l vr σ self σ',
    Catalog.new D gfc observation_space action_space l vr σ = (Ok self, σ') →
    (∀ shape dtype,
       action_space = Box shape dtype →
       (Catalog.get_action_dist_cls self "torch" σ').1 = Ok TorchDiagGaussian
       ∧ (Catalog.get_action_dist_cls self "tf" σ').1 = Ok TfDiagGaussian)
    ∧
    (∀ n,
       action_space = Discrete n →
       (Catalog.get_action_dist_cls self "torch" σ').1 = Ok TorchCategorical
       ∧ (Catalog.get_action_dist_cls self "tf" σ').1 = Ok TfCategorical)
    ∧
    (∀ framework,
       (Catalog.get_action_dist_cls self framework σ').1 ≠ Ok TorchDeterministic
       ∧ (Catalog.get_action_dist_cls self framework σ').1 ≠ Ok TfDeterministic).
Proof.
  intros D gfc observation_space action_space l vr σ self σ' Hnew.
  apply Catalog_new_success in Hnew
    as (c & ec & ad & Hl & _ & Had & Hself & Hobjs & Hdicts).
  assert (Hs : objs σ' !! self =
    Some (catalog_attrs observation_space action_space
            (fresh (dom (dicts σ))) vr ec ad)).
  { rewrite Hobjs. apply lookup_insert_eq. }
  assert (Hd : catalog_attrs observation_space action_space
                 (fresh (dom (dicts σ))) vr ec ad
                 !! "action_dist_cls_dict" = Some (ADistDict ad)).
  { unfold catalog_attrs. rewrite lookup_insert_ne by discriminate.
    apply lookup_insert_eq. }
  assert (Hrun : ∀ framework,
    (Catalog.get_action_dist_cls self framework σ').1 =
      Catalog.getitem ad framework).
  { intros framework.
    rewrite (get_action_dist_cls_run _ _ _ _ _ Hs Hd). reflexivity. }
  assert (Hfamily :
    ad = {[ "torch" := TorchDiagGaussian; "tf" := TfDiagGaussian ]}
         ∧ (∃ shape dtype, action_space = Box shape dtype)
    ∨ ad = {[ "torch" := TorchCategorical; "tf" := TfCategorical ]}
         ∧ (∃ n, action_space = Discrete n)).
  { unfold Catalog.get_action_dist_cls_dict in Had.
    destruct action_space as [shape dtype|n| | | | |]; try discriminate.
    - destruct (char_in dtype np_typecodes_AllInteger); [discriminate|].
      destruct (1 <? length shape)%nat; [discriminate|].
      simpl default in Had. cbv iota in Had.
      rewrite distribution_dicts_gaussian in Had. injection Had as <-.
      left. eauto.
    - rewrite distribution_dicts_categorical in Had. injection Had as <-.
      right. eauto. }
  split; [|split].
  - intros shape dtype ->. rewrite !Hrun.
    destruct Hfamily as [[-> _] | [_ [n [=]]]].
    split; vm_compute; reflexivity.
  - intros n ->. rewrite !Hrun.
    destruct Hfamily as [[_ (shape & dtype & [=])] | [-> _]].
    split; vm_compute; reflexivity.
  - intros framework. rewrite Hrun. unfold Catalog.getitem.
    destruct (ad !! framework) as [cls|] eqn:Hf; [|split; discriminate].
    destruct Hfamily as [[-> _] | [-> _]];
      apply family_lookup in Hf as [-> | ->]; split; discriminate.
Qed.

Lemma X13_catalog_stores_stochastic_family_witness :
  (Catalog.get_action_dist_cls 1%positive "torch"
     (Catalog.new sample_defaults sample_filter_config
        (Box [8] float32) (Box [2] float32) 1%positive None
        (store_with ∅)).2).1 = Ok TorchDiagGaussian
  ∧ (Catalog.get_action_dist_cls 1%positive "tf"
       (Catalog.new sample_defaults sample_filter_config
          (Box [8] float32) (Box [2] float32) 1%positive None
          (store_with ∅)).2).1 = Ok TfDiagGaussian.
Proof.
  assert (Hnew :
    Catalog.new sample_defaults sample_filter_config
      (Box [8] float32) (Box [2] float32) 1%positive None (store_with ∅) =
    (Ok 1%positive,
     (Catalog.new sample_defaults sample_filter_config
        (Box [8] float32) (Box [2] float32) 1%positive None (store_with ∅)).2))
    by (vm_compute; reflexivity).
  exact (proj1 (X13_catalog_stores_stochastic_family _ _ _ _ _ _ _ _ _ Hnew)
           [2] float32 eq_refl).
Defined.

Lemma Catalog_new_dicts_frame D gfc obs act l vr σ l0 d0 :
  dicts σ !! l0 = Some d0 →
  dicts (Catalog.new D gfc obs act l vr σ).2 !! l0 = Some d0.
Proof.
  intros H0.
  assert (Hkeep :
    ∀ m m', (<[fresh (dom (<[fresh (dom (dicts σ)) := m]> (dicts σ))) := m']>
               (<[fresh (dom (dicts σ)) := m]> (dicts σ))) !! l0 = Some d0).
  { intros m m'. rewrite lookup_insert_ne.
    2:{ eapply fresh_dict_ne. rewrite lookup_insert_ne; [exact H0|].
        eapply fresh_dict_ne, H0. }
    rewrite lookup_insert_ne; [exact H0|]. eapply fresh_dict_ne, H0. }
  destruct (dicts σ !! l) as [c|] eqn:Hl.
  - rewrite (Catalog_new_run _ _ _ _ _ _ _ c Hl). cbv zeta.
    destruct ((resolve_merged gfc obs (c ∪ D) (Some act) vr).1) as [ec|e].
    + destruct (Catalog.get_action_dist_cls_dict act (Some false)) as [ad|e];
        simpl; apply Hkeep.
    + simpl. apply Hkeep.
  - rewrite (Catalog_new_invalid _ _ _ _ _ _ _ Hl). simpl. exact H0.
Qed.

(** X14: the [model_config_dict] a Catalog stores is a dict of its own.
    Construction, whether it returns or raises, leaves every dict that
    existed before as it was; the stored dict is a new one, different
    from the caller's, so a later write to the caller's dict does not
    reach the Catalog's configuration. *)
Theorem X14_stored_config_is_a_copy :
  ∀ D gfc observation_space action_space l vr σ,
    (∀ l0 d0,
       dicts σ !! l0 = Some d0 →
       dicts (Catalog.new D gfc observation_space action_space l vr σ).2
         !! l0 = Some d0)
    ∧
    (∀ self σ',
       Catalog.new D gfc observation_space action_space l vr σ = (Ok self, σ') →
       ∃ attrs stored c,
         objs σ' !! self = Some attrs
         ∧ attrs !! "model_config_dict" = Some (ADictRef stored)
         ∧ dicts σ !! l = Some c
         ∧ dicts σ !! stored = None
         ∧ stored ≠ l
         ∧ ∀ key v,
             (dict_setitem l key v σ').1 = Ok tt
             ∧ dicts (dict_setitem l key v σ').2 !! l = Some (<[key := v]> c)
             ∧ dicts (dict_setitem l key v σ').2 !! stored = Some (c ∪ D)).
Proof.
  intros D gfc observation_space action_space l vr σ. split.
  - intros l0 d0. apply Catalog_new_dicts_frame.
  - intros self σ' Hnew.
    assert (Hl' : ∀ d0, dicts σ !! l = Some d0 → dicts σ' !! l = Some d0).
    { intros d0 H0.
      replace σ' with
        (Catalog.new D gfc observation_space action_space l vr σ).2
        by (rewrite Hnew; reflexivity).
      apply Catalog_new_dicts_frame, H0. }
    apply Catalog_new_success in Hnew
      as (c & ec & ad & Hl & _ & _ & Hself & Hobjs & Hdicts).
    assert (Hne : fresh (dom (dicts σ)) ≠ l) by (eapply fresh_dict_ne, Hl).
    assert (Hstored : dicts σ' !! fresh (dom (dicts σ)) = Some (c ∪ D)).
    { rewrite Hdicts. rewrite lookup_insert_ne by apply fresh_insert_ne.
      apply lookup_insert_eq. }
    exists (catalog_attrs observation_space action_space
              (fresh (dom (dicts σ))) vr ec ad), (fresh (dom (dicts σ))), c.
    split; [rewrite Hobjs; apply lookup_insert_eq|].
    split.
    { unfold catalog_attrs.
      repeat (rewrite lookup_insert_ne by discriminate). apply lookup_insert_eq. }
    split; [exact Hl|].
    split; [apply not_elem_of_dom, is_fresh|].
    split; [exact Hne|].
    intros key v. unfold dict_setitem, bind, read_dict.
    rewrite (Hl' c Hl). simpl.
    split; [reflexivity|]. split; [apply lookup_insert_eq|].
    rewrite lookup_insert_ne by (apply not_eq_sym, Hne). exact Hstored.
Qed.

Lemma X14_stored_config_is_a_copy_witness :
  dicts (Catalog.new sample_defaults sample_filter_config
           (Dict []) (Discrete 6) 1%positive None
           (store_with {[ "fcnet_hiddens" := PList [PInt 64] ]})).2
    !! 1%positive = Some {[ "fcnet_hiddens" := PList [PInt 64] ]}.
Proof.
  apply (proj1 (X14_stored_config_is_a_copy sample_defaults
    sample_filter_config (Dict []) (Discrete 6) 1%positive None
    (store_with {[ "fcnet_hiddens" := PList [PInt 64] ]}))).
  vm_compute. reflexivity.
Defined.

(** X15: the latent dimension of a recurrent Catalog is the cell size.
    When construction succeeds with [use_lstm] true, [latent_dim] is the
    merged [lstm_cell_size], whatever [encoder_latent_dim] and
    [fcnet_hiddens] are. *)
Theorem X15_lstm_catalog_latent_dim :
  ∀ D gfc observation_space action_space l vr σ self σ' c v_lstm cell,
    Catalog.new D gfc observation_space action_space l vr σ = (Ok self, σ') →
    dicts σ !! l = Some c →
    (c ∪ D) !! "use_lstm" = Some v_lstm → truthy v_lstm = true →
    (c ∪ D) !! "lstm_cell_size" = Some cell →
    ∃ attrs,
      objs σ' !! self = Some attrs
      ∧ attrs !! "latent_dim" = Some (AVal cell).
Proof.
  intros D gfc observation_space action_space l vr σ self σ' c v_lstm cell
    Hnew Hl Hlstm Tlstm Hcell.
  apply Catalog_new_success in Hnew
    as (c' & ec & ad & Hl' & Hec & _ & Hself & Hobjs & _).
  rewrite Hl in Hl'. injection Hl' as <-.
  assert (Hout : output_dim ec = cell).
  { unfold resolve_merged, try_with, Catalog.getitem in Hec.
    rewrite Hlstm, Tlstm, Hcell in Hec.
    destruct ((c ∪ D) !! "fcnet_activation"); [|discriminate].
    destruct ((c ∪ D) !! "fcnet_hiddens") as [h|]; [|discriminate].
    destruct ((c ∪ D) !! "encoder_latent_dim") as [x|]; [|discriminate].
    destruct (if truthy x then Ok x else subscript_last h); [|discriminate].
    destruct ((c ∪ D) !! "_time_major"); [|discriminate].
    injection Hec as <-. reflexivity. }
  eexists. rewrite Hobjs. split; [apply lookup_insert_eq|].
  unfold catalog_attrs. rewrite lookup_insert_eq, Hout. reflexivity.
Qed.

Lemma X15_lstm_catalog_latent_dim_witness :
  ∃ attrs,
    objs (Catalog.new sample_defaults sample_filter_config
            (Box [8] float32) (Discrete 6) 1%positive None
            (store_with {[ "use_lstm" := PBool true;
                           "lstm_cell_size" := PInt 64;
                           "encoder_latent_dim" := PInt 16 ]})).2
      !! 1%positive = Some attrs
    ∧ attrs !! "latent_dim" = Some (AVal (PInt 64)).
Proof.
  apply (X15_lstm_catalog_latent_dim sample_defaults sample_filter_config
    (Box [8] float32) (Discrete 6) 1%positive None
    (store_with {[ "use_lstm" := PBool true;
                   "lstm_cell_size" := PInt 64;
                   "encoder_latent_dim" := PInt 16 ]})
    1%positive _
    {[ "use_lstm" := PBool true;
       "lstm_cell_size" := PInt 64;
       "encoder_latent_dim" := PInt 16 ]} (PBool true) (PInt 64));
    vm_compute; reflexivity.
Defined.
